(** * A shallow embedding of [gla::VertexArray] (EasyOpenGL)

    Sources: [src/inc/GLA/vertexArray.h] and the implementation file
    [src/unnamed/part_000] ([toGLenum], [validateTypeInterpretation],
    [typeToBytes], [VertexArray::setAttributes]).

    Modelling choices:
    - C++ [int], [unsigned int] and [size_t] values are [Z]; the implicit
      conversions of the source are written out ([to_uint], [to_size_t]).
      Signed overflow is undefined in C++; the model keeps the exact value
      of a signed [int] expression.
    - A [VertexAttribType] is an [enum class] over [int]: any underlying
      value can reach the code, so attribute types are carried as their
      underlying [Z] and decoded with [type_of_code].
    - [VertexAttribInterp] is only ever compared with [Integer]; any
      other value behaves as [Float], so the two-constructor type loses
      nothing.
    - Native OpenGL calls are recorded in a log of [gl_event]s and are
      assumed to succeed; the value written by [glGetIntegerv] for
      [GL_MAX_VERTEX_ATTRIBS] is a parameter [maxVertexAttribs].
    - Exceptions do not roll back: a failing computation keeps the state
      it reached. *)

From Stdlib Require Import ZArith List String Bool Lia Permutation.
Import ListNotations.
Open Scope Z_scope.

(** ** Integer conversions *)

Definition to_size_t (z : Z) : Z := z mod 2 ^ 64.
Definition to_uint (z : Z) : Z := z mod 2 ^ 32.

Definition int_range (z : Z) : Prop := - 2 ^ 31 <= z < 2 ^ 31.
Definition uint_range (z : Z) : Prop := 0 <= z < 2 ^ 32.

(** ** Enumerations *)

Inductive VertexAttribType :=
| Byte | UnsignedByte | Short | UnsignedShort | Int | UnsignedInt
| HalfFloat | Float | Double | Fixed.

(** Underlying value of each enumerator (declaration order). *)
Definition type_code (t : VertexAttribType) : Z :=
  match t with
  | Byte => 0 | UnsignedByte => 1 | Short => 2 | UnsignedShort => 3
  | Int => 4 | UnsignedInt => 5 | HalfFloat => 6 | Float => 7
  | Double => 8 | Fixed => 9
  end.

Definition type_of_code (z : Z) : option VertexAttribType :=
  match z with
  | 0 => Some Byte | 1 => Some UnsignedByte | 2 => Some Short
  | 3 => Some UnsignedShort | 4 => Some Int | 5 => Some UnsignedInt
  | 6 => Some HalfFloat | 7 => Some Float | 8 => Some Double
  | 9 => Some Fixed | _ => None
  end.

Inductive VertexAttribInterp := IFloat | IInteger.

(** ** Failures: [std::invalid_argument] and [std::runtime_error] with
    the information their messages carry. *)

Inductive message :=
| MStrideNotPositive                 (* "stride must be greater than 0!" *)
| MQueryFailed                       (* "Could not query GL_MAX_VERTEX_ATTRIBS!" *)
| MTooManyAttribs (count limit : Z)  (* "... does not support <count> ... Max allowed are: <limit>" *)
| MBiggerThanStride                  (* "Given VertexAttributes are bigger than the stride!" *)
| MOverlap (i j : nat)               (* "VertexAttributes <i> and <j> overlap!" *)
| MNegativeOffset                    (* "Offset may not be less than 0!" *)
| MIndexTooBig (count : Z)           (* "... does not support indexes over <attribs.size()>!" *)
| MNumComponents                     (* "numComponents of VertexAttribute may only be 1 to 4!" *)
| MIncompatible (reason : string)    (* reason from validateTypeInterpretation *)
| MInvalidType.                      (* "Given VertexAttribType is invalid!" *)

Inductive error :=
| InvalidArgument (m : message)
| RuntimeError (m : message).

Inductive result (A : Type) :=
| Ok (a : A)
| Err (e : error).
Arguments Ok {A} a.
Arguments Err {A} e.

(** ** Native constants (GL/glew.h) *)

Definition GL_BYTE : Z := 5120.            (* 0x1400 *)
Definition GL_UNSIGNED_BYTE : Z := 5121.   (* 0x1401 *)
Definition GL_SHORT : Z := 5122.           (* 0x1402 *)
Definition GL_UNSIGNED_SHORT : Z := 5123.  (* 0x1403 *)
Definition GL_INT : Z := 5124.             (* 0x1404 *)
Definition GL_UNSIGNED_INT : Z := 5125.    (* 0x1405 *)
Definition GL_FLOAT : Z := 5126.           (* 0x1406 *)
Definition GL_DOUBLE : Z := 5130.          (* 0x140A *)
Definition GL_HALF_FLOAT : Z := 5131.      (* 0x140B *)
Definition GL_FIXED : Z := 5132.           (* 0x140C *)

(** ** The three free functions *)

(** [unsigned int toGLenum(VertexAttribType type)] *)
Definition toGLenum (type : Z) : result Z :=
  match type_of_code type with
  | Some Byte => Ok GL_BYTE
  | Some UnsignedByte => Ok GL_UNSIGNED_BYTE
  | Some Short => Ok GL_SHORT
  | Some UnsignedShort => Ok GL_UNSIGNED_SHORT
  | Some Int => Ok GL_INT
  | Some UnsignedInt => Ok GL_UNSIGNED_INT
  | Some HalfFloat => Ok GL_HALF_FLOAT
  | Some Float => Ok GL_FLOAT
  | Some Double => Ok GL_DOUBLE
  | Some Fixed => Ok GL_FIXED
  | None => Err (InvalidArgument MInvalidType)
  end.

(** [bool validateTypeInterpretation(type, interp, std::string& error)]:
    returns the boolean and the final contents of [error]. *)
Definition validateTypeInterpretation (type : Z) (interp : VertexAttribInterp)
    (error : string) : bool * string :=
  match interp with
  | IInteger =>
      match type_of_code type with
      | Some HalfFloat => (false, "Can't use type HalfFloat with Integer interpretation!"%string)
      | Some Float => (false, "Can't use type Float with Integer interpretation!"%string)
      | Some Double => (false, "Can't use type Double with Integer interpretation!"%string)
      | Some Fixed => (false, "Can't use type Fixed with Integer interpretation!"%string)
      | _ => (true, error)
      end
  | IFloat => (true, error)
  end.

(** [int typeToBytes(VertexAttribType type)] *)
Definition typeToBytes (type : Z) : result Z :=
  match type_of_code type with
  | Some Byte => Ok 1
  | Some UnsignedByte => Ok 1
  | Some Short => Ok 2
  | Some UnsignedShort => Ok 2
  | Some Int => Ok 4
  | Some UnsignedInt => Ok 4
  | Some HalfFloat => Ok 2
  | Some Float => Ok 4
  | Some Double => Ok 8
  | Some Fixed => Ok 4
  | None => Err (InvalidArgument MInvalidType)
  end.

(** ** Data: [struct VertexAttribute] and [class VertexArray] *)

Record VertexAttribute := {
  index : Z;                      (* unsigned int *)
  numComponents : Z;              (* int *)
  type : Z;                       (* VertexAttribType, underlying value *)
  interp : VertexAttribInterp;
  normalized : bool;
  offset : Z                      (* int *)
}.

(** A [VertexArray]: the native handle held by its [Buffer] base and the
    member [_enabledVertexAttribs]. *)
Record VertexArray := {
  va_handle : Z;
  enabledVertexAttribs : list Z
}.

(** Native calls issued by [setAttributes], in the order issued. *)
Inductive gl_event :=
| EvBind (handle : Z)
| EvDisableVertexAttribArray (i : Z)
| EvEnableVertexAttribArray (i : Z)
| EvVertexAttribIPointer (i n ty stride off : Z)
| EvVertexAttribPointer (i n ty : Z) (norm : bool) (stride off : Z).

Record gl_state := {
  vao : VertexArray;
  gl_log : list gl_event
}.

(** ** A state and exception monad: a thrown exception keeps the state
    reached so far. *)

Definition M (A : Type) : Type := gl_state -> result A * gl_state.

Definition retM {A} (a : A) : M A := fun s => (Ok a, s).

Definition bindM {A B} (m : M A) (k : A -> M B) : M B :=
  fun s => match m s with
           | (Ok a, s') => k a s'
           | (Err e, s') => (Err e, s')
           end.

Definition throw {A} (e : error) : M A := fun s => (Err e, s).

Definition liftR {A} (r : result A) : M A :=
  match r with Ok a => retM a | Err e => throw e end.

Notation "x <- m ;; k" := (bindM m (fun x => k))
  (at level 61, m at next level, right associativity).
Notation "m ;; k" := (bindM m (fun _ => k))
  (at level 61, right associativity).

Definition get : M gl_state := fun s => (Ok s, s).

Definition gl_call (ev : gl_event) : M unit :=
  fun s => (Ok tt, {| vao := vao s; gl_log := gl_log s ++ [ev] |}).

Definition set_enabled (l : list Z) : M unit :=
  fun s => (Ok tt, {| vao := {| va_handle := va_handle (vao s);
                                enabledVertexAttribs := l |};
                      gl_log := gl_log s |}).

(** [_enabledVertexAttribs.push_back(i)] *)
Definition push_enabled (i : Z) : M unit :=
  s <- get ;; set_enabled (enabledVertexAttribs (vao s) ++ [i]).

(** Modelled from the spec: [Buffer::bind] (declared in [GLA/buffer.h],
    not part of the sources) makes this object the current target of its
    binding point and has no other effect. *)
Definition bind : M unit :=
  s <- get ;; gl_call (EvBind (va_handle (vao s))).

Fixpoint for_each {A} (f : A -> M unit) (l : list A) : M unit :=
  match l with
  | [] => retM tt
  | x :: r => f x ;; for_each f r
  end.

(** ** The [DEBUG_ONLY] integrity pass of [setAttributes] *)

(** Inner loop [for (size_t j ...)] of descriptor [i], whose offset is
    [off_i] and whose end is [end_i]; [j] counts positions in [rest]. *)
Fixpoint overlap_scan (i : nat) (off_i end_i : Z) (j : nat)
    (rest : list VertexAttribute) : option error :=
  match rest with
  | [] => None
  | b :: r =>
      if Nat.eqb i j then overlap_scan i off_i end_i (S j) r
      else if (off_i <=? offset b) && (to_size_t (offset b) <? end_i)
      then Some (InvalidArgument (MOverlap i j))
      else overlap_scan i off_i end_i (S j) r
  end.

(** Outer loop [for (size_t i ...)]: [size_t end = offset + typeToBytes(type)
    * numComponents; if (end > stride) throw ...]. *)
Fixpoint stride_scan (attribs : list VertexAttribute) (stride : Z) (i : nat)
    (rest : list VertexAttribute) : option error :=
  match rest with
  | [] => None
  | a :: r =>
      match typeToBytes (type a) with
      | Err e => Some e
      | Ok bytes =>
          let end_ := to_size_t (offset a + bytes * numComponents a) in
          if to_size_t stride <? end_
          then Some (InvalidArgument MBiggerThanStride)
          else match overlap_scan i (offset a) end_ 0 attribs with
               | Some e => Some e
               | None => stride_scan attribs stride (S i) r
               end
      end
  end.

Definition integrity_check (attribs : list VertexAttribute) (stride : Z)
    : option error :=
  stride_scan attribs stride 0 attribs.

(** ** [VertexArray::setAttributes] *)

(** Body of [for (const VertexAttribute& attrib : attribs)]. *)
Definition apply_attrib (maxVertexAttribs stride count : Z)
    (attrib : VertexAttribute) : M unit :=
  if offset attrib <? 0 then throw (InvalidArgument MNegativeOffset) else
  if to_uint maxVertexAttribs <=? index attrib
  then throw (InvalidArgument (MIndexTooBig count)) else
  if (4 <? numComponents attrib) || (numComponents attrib <=? 0)
  then throw (InvalidArgument MNumComponents) else
  gl_call (EvEnableVertexAttribArray (index attrib)) ;;
  push_enabled (index attrib) ;;
  let '(ok, error) := validateTypeInterpretation (type attrib) (interp attrib) EmptyString in
  if negb ok then throw (InvalidArgument (MIncompatible error)) else
  match interp attrib with
  | IInteger =>
      ty <- liftR (toGLenum (type attrib)) ;;
      gl_call (EvVertexAttribIPointer (index attrib) (numComponents attrib)
                 ty stride (offset attrib))
  | IFloat =>
      ty <- liftR (toGLenum (type attrib)) ;;
      gl_call (EvVertexAttribPointer (index attrib) (numComponents attrib)
                 ty (normalized attrib) stride (offset attrib))
  end.

(** [debug] selects the build with [DEBUG_MODE] defined; [maxVertexAttribs]
    is the value [glGetIntegerv(GL_MAX_VERTEX_ATTRIBS, ...)] leaves. *)
Definition setAttributes (debug : bool) (maxVertexAttribs : Z)
    (attribs : list VertexAttribute) (stride : Z) : M unit :=
  if stride <=? 0 then throw (InvalidArgument MStrideNotPositive) else
  if maxVertexAttribs <? 0 then throw (RuntimeError MQueryFailed) else
  let count := Z.of_nat (List.length attribs) in
  if to_size_t maxVertexAttribs <? count
  then throw (RuntimeError (MTooManyAttribs count maxVertexAttribs)) else
  bind ;;
  s <- get ;;
  for_each (fun i => gl_call (EvDisableVertexAttribArray i))
    (enabledVertexAttribs (vao s)) ;;
  set_enabled [] ;;
  (if debug
   then match integrity_check attribs stride with
        | Some e => throw e
        | None => retM tt
        end
   else retM tt) ;;
  for_each (apply_attrib maxVertexAttribs stride count) attribs.

(** ** Moves *)

(** Modelled from the spec: the move constructor and move assignment of
    [Buffer] (in [GLA/buffer.h], not part of the sources) transfer the
    native handle and leave the source with the null handle [0]. Results
    are (destination handle, source handle). *)
Definition Buffer_move (other : Z) : Z * Z := (other, 0).
Definition Buffer_move_assign (self other : Z) : Z * Z := (other, 0).

(** [VertexArray(VertexArray&& other) : Buffer(std::move(other)) {}]:
    [_enabledVertexAttribs] gets its default member initializer [{}].
    Result: (new object, moved-from object). *)
Definition VertexArray_move (other : VertexArray) : VertexArray * VertexArray :=
  let '(h, h_other) := Buffer_move (va_handle other) in
  ({| va_handle := h; enabledVertexAttribs := [] |},
   {| va_handle := h_other; enabledVertexAttribs := enabledVertexAttribs other |}).

(** [operator=(VertexArray&& other) { Buffer::operator=(std::move(other)); }]:
    [_enabledVertexAttribs] of [*this] is left as it was.
    Result: (assigned object, moved-from object). *)
Definition VertexArray_move_assign (self other : VertexArray)
    : VertexArray * VertexArray :=
  let '(h, h_other) := Buffer_move_assign (va_handle self) (va_handle other) in
  ({| va_handle := h; enabledVertexAttribs := enabledVertexAttribs self |},
   {| va_handle := h_other; enabledVertexAttribs := enabledVertexAttribs other |}).

(** ** Examples *)

Definition attr (i n ty : Z) (ip : VertexAttribInterp) (off : Z) : VertexAttribute :=
  {| index := i; numComponents := n; type := ty; interp := ip;
     normalized := false; offset := off |}.

Definition init_state : gl_state :=
  {| vao := {| va_handle := 1; enabledVertexAttribs := [] |}; gl_log := [] |}.

Definition outcome {A} (m : M A) (s : gl_state) : result A := fst (m s).
Definition after {A} (m : M A) (s : gl_state) : gl_state := snd (m s).

Example spec_debug_overlap :
  outcome (setAttributes true 16
             [attr 0 3 (type_code Float) IFloat 0; attr 1 1 (type_code Float) IFloat 8]
             16) init_state
  = Err (InvalidArgument (MOverlap 0 1)).
Proof. reflexivity. Qed.

Example spec_debug_stride :
  outcome (setAttributes true 16 [attr 0 4 (type_code Float) IFloat 0] 12) init_state
  = Err (InvalidArgument MBiggerThanStride).
Proof. reflexivity. Qed.

(** * Properties *)

Lemma to_size_t_small (z : Z) : 0 <= z < 2 ^ 64 -> to_size_t z = z.
Proof. intros H. unfold to_size_t. apply Z.mod_small. exact H. Qed.

Lemma to_uint_small (z : Z) : 0 <= z < 2 ^ 32 -> to_uint z = z.
Proof. intros H. unfold to_uint. apply Z.mod_small. exact H. Qed.

Lemma to_size_t_neg (z : Z) : - 2 ^ 64 <= z < 0 -> to_size_t z = z + 2 ^ 64.
Proof.
  intros H. unfold to_size_t.
  rewrite <- (Z.mod_small (z + 2 ^ 64) (2 ^ 64)) by lia.
  rewrite <- Z.add_mod_idemp_r by lia. rewrite Z.mod_same by lia.
  now rewrite Z.add_0_r.
Qed.

Lemma type_of_code_type_code (t : VertexAttribType) :
  type_of_code (type_code t) = Some t.
Proof. now destruct t. Qed.

Lemma type_of_code_inv (z : Z) (t : VertexAttribType) :
  type_of_code z = Some t -> z = type_code t.
Proof.
  intros H.
  destruct z as [|p|p]; [now inversion H| |now inversion H].
  repeat (destruct p as [p|p|]; try discriminate H);
    inversion H; subst; reflexivity.
Qed.

Lemma type_of_code_none (z : Z) :
  type_of_code z = None <-> forall t, z <> type_code t.
Proof.
  split.
  - intros H t E. subst z. now rewrite type_of_code_type_code in H.
  - intros H. destruct (type_of_code z) as [t|] eqn:E; [|reflexivity].
    exfalso. exact (H t (type_of_code_inv z t E)).
Qed.

(** ** C9 *)

(** C9: [typeToBytes] and [toGLenum] return the documented width and the
    native constant for each of the ten enumerators, and fail with
    invalid-argument exactly on values outside the enumeration. *)
Theorem C9_type_tables :
  typeToBytes (type_code Byte) = Ok 1 /\
  typeToBytes (type_code UnsignedByte) = Ok 1 /\
  typeToBytes (type_code Short) = Ok 2 /\
  typeToBytes (type_code UnsignedShort) = Ok 2 /\
  typeToBytes (type_code HalfFloat) = Ok 2 /\
  typeToBytes (type_code Int) = Ok 4 /\
  typeToBytes (type_code UnsignedInt) = Ok 4 /\
  typeToBytes (type_code Float) = Ok 4 /\
  typeToBytes (type_code Fixed) = Ok 4 /\
  typeToBytes (type_code Double) = Ok 8 /\
  toGLenum (type_code Byte) = Ok GL_BYTE /\
  toGLenum (type_code UnsignedByte) = Ok GL_UNSIGNED_BYTE /\
  toGLenum (type_code Short) = Ok GL_SHORT /\
  toGLenum (type_code UnsignedShort) = Ok GL_UNSIGNED_SHORT /\
  toGLenum (type_code Int) = Ok GL_INT /\
  toGLenum (type_code UnsignedInt) = Ok GL_UNSIGNED_INT /\
  toGLenum (type_code HalfFloat) = Ok GL_HALF_FLOAT /\
  toGLenum (type_code Float) = Ok GL_FLOAT /\
  toGLenum (type_code Double) = Ok GL_DOUBLE /\
  toGLenum (type_code Fixed) = Ok GL_FIXED /\
  (forall z : Z,
     (typeToBytes z = Err (InvalidArgument MInvalidType)
        <-> (forall t, z <> type_code t)) /\
     (toGLenum z = Err (InvalidArgument MInvalidType)
        <-> (forall t, z <> type_code t))).
Proof.
  repeat split; try reflexivity;
    rewrite <- type_of_code_none; unfold typeToBytes, toGLenum;
    destruct (type_of_code z) as [[]|]; congruence.
Qed.

(** ** C8 *)

(** C8: with the Integer interpretation the check fails exactly for
    HalfFloat, Float, Double and Fixed, and then sets a reason string;
    with the Float interpretation it always succeeds. *)
Theorem C8_validateTypeInterpretation (ty : Z) (e : string) :
  (fst (validateTypeInterpretation ty IInteger e) = false <->
     In ty (map type_code [HalfFloat; Float; Double; Fixed])) /\
  (fst (validateTypeInterpretation ty IInteger e) = false ->
     exists name, snd (validateTypeInterpretation ty IInteger e) =
       ("Can't use type " ++ name ++ " with Integer interpretation!")%string) /\
  fst (validateTypeInterpretation ty IFloat e) = true.
Proof.
  unfold validateTypeInterpretation. simpl.
  destruct (type_of_code ty) as [t|] eqn:E.
  - apply type_of_code_inv in E. subst ty.
    destruct t; simpl; repeat split; intros H;
      first [ discriminate H | lia | (exfalso; lia)
            | (exists "HalfFloat"%string; reflexivity)
            | (exists "Float"%string; reflexivity)
            | (exists "Double"%string; reflexivity)
            | (exists "Fixed"%string; reflexivity) ].
  - rewrite type_of_code_none in E.
    repeat split; intros H; try discriminate H.
    exfalso. simpl in H.
    repeat destruct H as [H|H]; [apply (E HalfFloat)|apply (E Float)
      |apply (E Double)|apply (E Fixed)|contradiction]; simpl; lia.
Qed.

(** ** C4 *)

(** C4: a non-positive stride fails with invalid-argument before any
    native call and leaves the state, enabled-index set included,
    unchanged. *)
Theorem C4_stride_not_positive (debug : bool) (maxVertexAttribs : Z)
    (attribs : list VertexAttribute) (stride : Z) (s : gl_state) :
  stride <= 0 ->
  setAttributes debug maxVertexAttribs attribs stride s
  = (Err (InvalidArgument MStrideNotPositive), s).
Proof.
  intros Hs. unfold setAttributes.
  replace (stride <=? 0) with true by (symmetry; apply Z.leb_le; exact Hs).
  reflexivity.
Qed.

Lemma C4_stride_not_positive_witness :
  setAttributes false 16 [attr 0 3 (type_code Float) IFloat 0] 0 init_state
  = (Err (InvalidArgument MStrideNotPositive), init_state).
Proof. apply C4_stride_not_positive. lia. Defined.

(** ** C7 *)

Definition too_many_layout : list VertexAttribute :=
  repeat (attr 0 1 (type_code Float) IFloat 0) 17.

(** C7 as stated fails: with stride [0] the stride check comes first and
    raises invalid-argument; when the query leaves a negative value the
    query failure is raised, which names neither count nor limit. *)
Lemma C7_counterexample :
  (Z.of_nat (List.length too_many_layout) > 16 /\
   outcome (setAttributes false 16 too_many_layout 0) init_state
   = Err (InvalidArgument MStrideNotPositive)) /\
  (Z.of_nat (List.length (@nil VertexAttribute)) > -1 /\
   outcome (setAttributes false (-1) [] 4) init_state
   = Err (RuntimeError MQueryFailed)).
Proof. split; split; reflexivity. Qed.

(** C7 (amended): with a positive stride and a successfully queried
    (non-negative) limit below the descriptor count, [setAttributes]
    raises a runtime failure carrying the count and the limit, before
    binding, disabling or enabling anything: the state is unchanged. *)
Theorem C7_too_many_attribs (debug : bool) (maxVertexAttribs : Z)
    (attribs : list VertexAttribute) (stride : Z) (s : gl_state) :
  0 < stride ->
  0 <= maxVertexAttribs < 2 ^ 31 ->
  maxVertexAttribs < Z.of_nat (List.length attribs) ->
  setAttributes debug maxVertexAttribs attribs stride s
  = (Err (RuntimeError (MTooManyAttribs (Z.of_nat (List.length attribs))
                                        maxVertexAttribs)), s).
Proof.
  intros Hs Hm Hc. unfold setAttributes.
  replace (stride <=? 0) with false by (symmetry; apply Z.leb_gt; lia).
  replace (maxVertexAttribs <? 0) with false by (symmetry; apply Z.ltb_ge; lia).
  rewrite to_size_t_small by lia.
  replace (maxVertexAttribs <? Z.of_nat (List.length attribs)) with true
    by (symmetry; apply Z.ltb_lt; lia).
  reflexivity.
Qed.

Lemma C7_too_many_attribs_witness :
  setAttributes true 16 too_many_layout 4 init_state
  = (Err (RuntimeError (MTooManyAttribs 17 16)), init_state).
Proof. apply (C7_too_many_attribs true 16 too_many_layout 4 init_state); [lia | lia | vm_compute; reflexivity]. Defined.

(** ** C3 *)

(** C3: moving does not carry the enabled-index set. The move constructor
    leaves the new object's set empty and move assignment keeps the
    destination's previous set, while the handle is transferred. *)
Theorem C3_move_keeps_enabled_set :
  let src := {| va_handle := 5; enabledVertexAttribs := [0; 1] |} in
  let dst := {| va_handle := 7; enabledVertexAttribs := [3] |} in
  va_handle (fst (VertexArray_move src)) = 5 /\
  enabledVertexAttribs (fst (VertexArray_move src)) = [] /\
  va_handle (fst (VertexArray_move_assign dst src)) = 5 /\
  enabledVertexAttribs (fst (VertexArray_move_assign dst src)) = [3] /\
  (forall other, enabledVertexAttribs (fst (VertexArray_move other)) = []) /\
  (forall self other,
     enabledVertexAttribs (fst (VertexArray_move_assign self other))
     = enabledVertexAttribs self).
Proof. repeat split; reflexivity. Qed.

(** ** The main loop of [setAttributes] *)

(** The pointer call issued for a descriptor once its native type is [ty]. *)
Definition pointer_event (stride : Z) (a : VertexAttribute) (ty : Z) : gl_event :=
  match interp a with
  | IInteger => EvVertexAttribIPointer (index a) (numComponents a) ty stride (offset a)
  | IFloat => EvVertexAttribPointer (index a) (numComponents a) ty (normalized a)
                stride (offset a)
  end.

(** Native calls of one successfully applied descriptor. *)
Definition attrib_log (stride : Z) (a : VertexAttribute) : list gl_event :=
  match toGLenum (type a) with
  | Ok ty => [EvEnableVertexAttribArray (index a); pointer_event stride a ty]
  | Err _ => []
  end.

(** The per-descriptor preconditions of [setAttributes]. *)
Definition attrib_valid (maxVertexAttribs : Z) (a : VertexAttribute) : Prop :=
  0 <= offset a /\ index a < maxVertexAttribs /\ 1 <= numComponents a <= 4 /\
  type_of_code (type a) <> None /\
  fst (validateTypeInterpretation (type a) (interp a) EmptyString) = true.

Lemma toGLenum_ok (z : Z) :
  type_of_code z <> None -> exists ty, toGLenum z = Ok ty.
Proof.
  intros H. unfold toGLenum.
  destruct (type_of_code z) as [[]|]; try contradiction; eexists; reflexivity.
Qed.

Lemma for_each_disable (l : list Z) (s : gl_state) :
  for_each (fun i => gl_call (EvDisableVertexAttribArray i)) l s
  = (Ok tt, {| vao := vao s;
               gl_log := gl_log s ++ map EvDisableVertexAttribArray l |}).
Proof.
  revert s. induction l as [|i l IH]; intros s; simpl.
  - rewrite app_nil_r. now destruct s.
  - unfold bindM, gl_call at 1. rewrite IH. simpl.
    now rewrite <- app_assoc.
Qed.

Lemma apply_attrib_ok_inv (maxVertexAttribs stride count : Z)
    (a : VertexAttribute) (s s' : gl_state) :
  apply_attrib maxVertexAttribs stride count a s = (Ok tt, s') ->
  s' = {| vao := {| va_handle := va_handle (vao s);
                    enabledVertexAttribs := enabledVertexAttribs (vao s) ++ [index a] |};
          gl_log := gl_log s ++ attrib_log stride a |}.
Proof.
  unfold apply_attrib, throw.
  destruct (offset a <? 0); [discriminate|].
  destruct (to_uint maxVertexAttribs <=? index a); [discriminate|].
  destruct (_ || _); [discriminate|].
  unfold bindM, gl_call, push_enabled, get, set_enabled; simpl.
  destruct (validateTypeInterpretation (type a) (interp a) EmptyString)
    as [[|] err]; simpl; [|discriminate].
  unfold attrib_log, pointer_event, liftR, throw, retM.
  destruct (toGLenum (type a)) as [ty|e]; [|destruct (interp a); discriminate].
  destruct (interp a); intros H; inversion H; subst; simpl;
    now rewrite <- app_assoc.
Qed.

Lemma apply_attrib_valid (maxVertexAttribs stride count : Z)
    (a : VertexAttribute) (s : gl_state) :
  0 <= maxVertexAttribs < 2 ^ 31 ->
  attrib_valid maxVertexAttribs a ->
  fst (apply_attrib maxVertexAttribs stride count a s) = Ok tt.
Proof.
  intros Hm (Ho & Hi & Hn & Ht & Hv). unfold apply_attrib.
  replace (offset a <? 0) with false by (symmetry; apply Z.ltb_ge; lia).
  rewrite to_uint_small by lia.
  replace (maxVertexAttribs <=? index a) with false by (symmetry; apply Z.leb_gt; lia).
  replace ((4 <? numComponents a) || (numComponents a <=? 0)) with false
    by (symmetry; apply orb_false_iff; split; [apply Z.ltb_ge | apply Z.leb_gt]; lia).
  unfold bindM, gl_call, push_enabled, get, set_enabled; simpl.
  destruct (validateTypeInterpretation (type a) (interp a) EmptyString)
    as [ok err]; simpl in Hv; subst ok; simpl.
  destruct (toGLenum_ok (type a) Ht) as [ty Hty].
  unfold liftR. rewrite Hty. destruct (interp a); reflexivity.
Qed.

Lemma for_each_apply_ok_inv (maxVertexAttribs stride count : Z)
    (l : list VertexAttribute) (s s' : gl_state) :
  for_each (apply_attrib maxVertexAttribs stride count) l s = (Ok tt, s') ->
  s' = {| vao := {| va_handle := va_handle (vao s);
                    enabledVertexAttribs := enabledVertexAttribs (vao s) ++ map index l |};
          gl_log := gl_log s ++ flat_map (attrib_log stride) l |}.
Proof.
  revert s. induction l as [|a l IH]; intros s; simpl.
  - intros H. injection H as <-. rewrite !app_nil_r. now destruct s as [[] ?].
  - unfold bindM.
    destruct (apply_attrib maxVertexAttribs stride count a s) as [[[]|e] s1] eqn:E;
      [|discriminate].
    apply apply_attrib_ok_inv in E. subst s1.
    intros H. apply IH in H. subst s'. simpl.
    now rewrite <- !app_assoc.
Qed.

Lemma for_each_apply_valid (maxVertexAttribs stride count : Z)
    (l : list VertexAttribute) (s : gl_state) :
  0 <= maxVertexAttribs < 2 ^ 31 ->
  Forall (attrib_valid maxVertexAttribs) l ->
  fst (for_each (apply_attrib maxVertexAttribs stride count) l s) = Ok tt.
Proof.
  intros Hm Hl. revert s. induction Hl as [|a l Ha Hl IH]; intros s; [reflexivity|].
  simpl. unfold bindM.
  pose proof (apply_attrib_valid maxVertexAttribs stride count a s Hm Ha) as E.
  destruct (apply_attrib maxVertexAttribs stride count a s) as [[[]|e] s1];
    simpl in E; [apply IH | discriminate].
Qed.

(** ** A successful [setAttributes] *)

(** The state once the object is bound and the previously enabled
    indices are disabled and forgotten. *)
Definition reset_state (s : gl_state) : gl_state :=
  {| vao := {| va_handle := va_handle (vao s); enabledVertexAttribs := [] |};
     gl_log := gl_log s ++ [EvBind (va_handle (vao s))]
               ++ map EvDisableVertexAttribArray (enabledVertexAttribs (vao s)) |}.

Lemma setAttributes_after_reset (debug : bool) (maxVertexAttribs : Z)
    (attribs : list VertexAttribute) (stride : Z) (s : gl_state) :
  (bind ;;
   s0 <- get ;;
   for_each (fun i => gl_call (EvDisableVertexAttribArray i))
     (enabledVertexAttribs (vao s0)) ;;
   set_enabled [] ;;
   (if debug
    then match integrity_check attribs stride with
         | Some e => throw e
         | None => retM tt
         end
    else retM tt) ;;
   for_each (apply_attrib maxVertexAttribs stride
               (Z.of_nat (List.length attribs))) attribs) s
  = ((if debug
      then match integrity_check attribs stride with
           | Some e => throw e
           | None => retM tt
           end
      else retM tt) ;;
     for_each (apply_attrib maxVertexAttribs stride
                 (Z.of_nat (List.length attribs))) attribs) (reset_state s).
Proof.
  unfold bindM at 1, bind, get, bindM at 1, gl_call at 1. simpl.
  unfold bindM at 1. simpl. unfold bindM at 1. rewrite for_each_disable. simpl.
  unfold bindM at 1, set_enabled at 1. simpl.
  unfold reset_state. now rewrite <- app_assoc.
Qed.

Lemma setAttributes_ok_inv (debug : bool) (maxVertexAttribs : Z)
    (attribs : list VertexAttribute) (stride : Z) (s s' : gl_state) :
  setAttributes debug maxVertexAttribs attribs stride s = (Ok tt, s') ->
  s' = {| vao := {| va_handle := va_handle (vao s);
                    enabledVertexAttribs := map index attribs |};
          gl_log := gl_log s ++ [EvBind (va_handle (vao s))]
                    ++ map EvDisableVertexAttribArray (enabledVertexAttribs (vao s))
                    ++ flat_map (attrib_log stride) attribs |}.
Proof.
  unfold setAttributes, throw.
  destruct (stride <=? 0); [discriminate|].
  destruct (maxVertexAttribs <? 0); [discriminate|].
  destruct (to_size_t maxVertexAttribs <? _); [discriminate|].
  rewrite setAttributes_after_reset.
  unfold bindM at 1.
  destruct debug; [destruct (integrity_check attribs stride); [discriminate|]|];
    unfold retM; intros H; apply for_each_apply_ok_inv in H; subst s'; simpl;
    now rewrite <- !app_assoc.
Qed.

(** The run reaches the loop over descriptors and completes it. *)
Lemma setAttributes_valid (debug : bool) (maxVertexAttribs : Z)
    (attribs : list VertexAttribute) (stride : Z) (s : gl_state) :
  0 < stride ->
  0 <= maxVertexAttribs < 2 ^ 31 ->
  Z.of_nat (List.length attribs) <= maxVertexAttribs ->
  (debug = true -> integrity_check attribs stride = None) ->
  Forall (attrib_valid maxVertexAttribs) attribs ->
  fst (setAttributes debug maxVertexAttribs attribs stride s) = Ok tt.
Proof.
  intros Hs Hm Hc Hd Hl. unfold setAttributes.
  replace (stride <=? 0) with false by (symmetry; apply Z.leb_gt; lia).
  replace (maxVertexAttribs <? 0) with false by (symmetry; apply Z.ltb_ge; lia).
  rewrite to_size_t_small by lia.
  replace (maxVertexAttribs <? Z.of_nat (List.length attribs)) with false
    by (symmetry; apply Z.ltb_ge; lia).
  rewrite setAttributes_after_reset.
  unfold bindM at 1.
  destruct debug; [rewrite Hd by reflexivity|]; unfold retM;
    apply for_each_apply_valid; assumption.
Qed.

(** ** C1 *)

(** C1 as stated fails: a layout meeting every listed condition but with
    more descriptors than the limit fails with a runtime error, and in a
    debug build a descriptor larger than the stride fails the integrity
    pass. *)
Lemma C1_counterexample :
  (Forall (attrib_valid 16) too_many_layout /\
   outcome (setAttributes false 16 too_many_layout 4) init_state
   = Err (RuntimeError (MTooManyAttribs 17 16))) /\
  (Forall (attrib_valid 16) [attr 0 4 (type_code Float) IFloat 0] /\
   outcome (setAttributes true 16 [attr 0 4 (type_code Float) IFloat 0] 12) init_state
   = Err (InvalidArgument MBiggerThanStride)).
Proof.
  split; split; try reflexivity;
    repeat constructor; unfold attrib_valid; simpl; try lia; discriminate.
Qed.

(** C1 (amended): with a positive stride, at most [maxVertexAttribs]
    descriptors (a non-negative queried limit), every descriptor valid
    (offset >= 0, index below the limit, 1 to 4 components, a type of the
    enumeration compatible with its interpretation) and, in a debug build,
    a layout accepted by the integrity pass, [setAttributes] succeeds and
    the enabled-index set is the list of the layout's indices. *)
Theorem C1_setAttributes_roundtrip (debug : bool) (maxVertexAttribs : Z)
    (attribs : list VertexAttribute) (stride : Z) (s : gl_state) :
  0 < stride ->
  0 <= maxVertexAttribs < 2 ^ 31 ->
  Z.of_nat (List.length attribs) <= maxVertexAttribs ->
  (debug = true -> integrity_check attribs stride = None) ->
  Forall (attrib_valid maxVertexAttribs) attribs ->
  outcome (setAttributes debug maxVertexAttribs attribs stride) s = Ok tt /\
  enabledVertexAttribs (vao (after (setAttributes debug maxVertexAttribs attribs stride) s))
  = map index attribs /\
  (forall i, In i (enabledVertexAttribs
                     (vao (after (setAttributes debug maxVertexAttribs attribs stride) s)))
             <-> exists a, In a attribs /\ index a = i).
Proof.
  intros Hs Hm Hc Hd Hl.
  pose proof (setAttributes_valid debug maxVertexAttribs attribs stride s Hs Hm Hc Hd Hl) as H.
  unfold outcome, after.
  destruct (setAttributes debug maxVertexAttribs attribs stride s) as [r s'] eqn:E.
  simpl in H. subst r. apply setAttributes_ok_inv in E. subst s'. simpl.
  split; [reflexivity|]. split; [reflexivity|].
  intros i. rewrite in_map_iff. split; intros (a & H1 & H2); exists a; split; assumption.
Qed.

Definition sample_layout : list VertexAttribute :=
  [attr 0 3 (type_code Float) IFloat 0; attr 1 2 (type_code Float) IFloat 12;
   attr 2 1 (type_code Int) IInteger 20].

Lemma C1_setAttributes_roundtrip_witness :
  outcome (setAttributes true 16 sample_layout 24) init_state = Ok tt /\
  enabledVertexAttribs (vao (after (setAttributes true 16 sample_layout 24) init_state))
  = [0; 1; 2] /\
  (forall i, In i (enabledVertexAttribs
                     (vao (after (setAttributes true 16 sample_layout 24) init_state)))
             <-> exists a, In a sample_layout /\ index a = i).
Proof.
  apply C1_setAttributes_roundtrip.
  - lia.
  - lia.
  - simpl. lia.
  - intros _. vm_compute. reflexivity.
  - repeat constructor; unfold attrib_valid; simpl; try lia; discriminate.
Defined.

(** ** C2 *)

Lemma attrib_log_no_disable (stride : Z) (l : list VertexAttribute) (ev : gl_event) :
  In ev (flat_map (attrib_log stride) l) -> forall i, ev <> EvDisableVertexAttribArray i.
Proof.
  rewrite in_flat_map. intros (a & _ & H) i ->.
  unfold attrib_log, pointer_event in H.
  destruct (toGLenum (type a)); [|contradiction].
  destruct (interp a); simpl in H; intuition discriminate.
Qed.

(** C2: when two successive calls on one object both succeed, the second
    binds the object, then disables every index the first call enabled,
    and only then issues its own enable and pointer calls (none of which
    is a disable); its enabled-index set is then exactly the indices of
    the second layout. *)
Theorem C2_reconfigure_disables_previous (debug : bool) (lim1 lim2 : Z)
    (l1 l2 : list VertexAttribute) (stride1 stride2 : Z) (s0 s1 s2 : gl_state) :
  setAttributes debug lim1 l1 stride1 s0 = (Ok tt, s1) ->
  setAttributes debug lim2 l2 stride2 s1 = (Ok tt, s2) ->
  gl_log s2 = gl_log s1 ++ [EvBind (va_handle (vao s1))]
              ++ map EvDisableVertexAttribArray (map index l1)
              ++ flat_map (attrib_log stride2) l2 /\
  (forall ev, In ev (flat_map (attrib_log stride2) l2) ->
              forall i, ev <> EvDisableVertexAttribArray i) /\
  enabledVertexAttribs (vao s2) = map index l2.
Proof.
  intros H1 H2.
  apply setAttributes_ok_inv in H1. apply setAttributes_ok_inv in H2.
  assert (E1 : enabledVertexAttribs (vao s1) = map index l1) by (subst s1; reflexivity).
  subst s2. simpl. rewrite E1.
  split; [reflexivity|]. split; [apply attrib_log_no_disable|reflexivity].
Qed.

Definition second_layout : list VertexAttribute :=
  [attr 3 4 (type_code UnsignedByte) IFloat 0].

Lemma C2_reconfigure_disables_previous_witness :
  let s1 := after (setAttributes false 16 sample_layout 24) init_state in
  let s2 := after (setAttributes false 16 second_layout 4) s1 in
  gl_log s2 = gl_log s1 ++ [EvBind (va_handle (vao s1))]
              ++ map EvDisableVertexAttribArray (map index sample_layout)
              ++ flat_map (attrib_log 4) second_layout /\
  (forall ev, In ev (flat_map (attrib_log 4) second_layout) ->
              forall i, ev <> EvDisableVertexAttribArray i) /\
  enabledVertexAttribs (vao s2) = map index second_layout.
Proof.
  intros s1 s2.
  apply (C2_reconfigure_disables_previous false 16 16 sample_layout second_layout
           24 4 init_state s1 s2); vm_compute; reflexivity.
Defined.

(** ** C6 *)

(** The state once index [i] is enabled and recorded. *)
Definition enable_state (s : gl_state) (i : Z) : gl_state :=
  {| vao := {| va_handle := va_handle (vao s);
               enabledVertexAttribs := enabledVertexAttribs (vao s) ++ [i] |};
     gl_log := gl_log s ++ [EvEnableVertexAttribArray i] |}.

Lemma apply_attrib_invalid (maxVertexAttribs stride count : Z)
    (a : VertexAttribute) (s : gl_state) :
  0 <= maxVertexAttribs < 2 ^ 31 ->
  ~ attrib_valid maxVertexAttribs a ->
  exists e s', apply_attrib maxVertexAttribs stride count a s = (Err e, s') /\
               (s' = s \/ s' = enable_state s (index a)).
Proof.
  intros Hm Hv. unfold apply_attrib, throw.
  destruct (offset a <? 0) eqn:Ho; [eauto|].
  destruct (to_uint maxVertexAttribs <=? index a) eqn:Hi; [eauto|].
  destruct (_ || _) eqn:Hn; [eauto|].
  rewrite to_uint_small in Hi by lia.
  apply Z.ltb_ge in Ho. apply Z.leb_gt in Hi.
  apply orb_false_iff in Hn. destruct Hn as [Hn1 Hn2].
  apply Z.ltb_ge in Hn1. apply Z.leb_gt in Hn2.
  unfold bindM, gl_call, push_enabled, get, set_enabled; simpl.
  destruct (validateTypeInterpretation (type a) (interp a) EmptyString)
    as [ok err] eqn:Ev; destruct ok; simpl; [|eauto].
  destruct (type_of_code (type a)) eqn:Et.
  - exfalso. apply Hv. unfold attrib_valid. rewrite Ev, Et.
    repeat split; try lia; discriminate.
  - unfold liftR, toGLenum, throw. rewrite Et.
    destruct (interp a); eauto.
Qed.

Lemma apply_attrib_incompatible (maxVertexAttribs stride count : Z)
    (a : VertexAttribute) (s : gl_state) :
  0 <= maxVertexAttribs < 2 ^ 31 ->
  0 <= offset a -> index a < maxVertexAttribs -> 1 <= numComponents a <= 4 ->
  fst (validateTypeInterpretation (type a) (interp a) EmptyString) = false ->
  apply_attrib maxVertexAttribs stride count a s
  = (Err (InvalidArgument
            (MIncompatible (snd (validateTypeInterpretation (type a) (interp a) EmptyString)))),
     enable_state s (index a)).
Proof.
  intros Hm Ho Hi Hn Hv. unfold apply_attrib, throw.
  replace (offset a <? 0) with false by (symmetry; apply Z.ltb_ge; lia).
  rewrite to_uint_small by lia.
  replace (maxVertexAttribs <=? index a) with false by (symmetry; apply Z.leb_gt; lia).
  replace ((4 <? numComponents a) || (numComponents a <=? 0)) with false
    by (symmetry; apply orb_false_iff; split; [apply Z.ltb_ge | apply Z.leb_gt]; lia).
  unfold bindM, gl_call, push_enabled, get, set_enabled; simpl.
  destruct (validateTypeInterpretation (type a) (interp a) EmptyString)
    as [ok err]; simpl in Hv; subst ok. reflexivity.
Qed.

Lemma for_each_app {A} (f : A -> M unit) (l1 l2 : list A) (s : gl_state) :
  for_each f (l1 ++ l2) s = (for_each f l1 ;; for_each f l2) s.
Proof.
  revert s. induction l1 as [|x l1 IH]; intros s; [reflexivity|].
  simpl. unfold bindM. destruct (f x s) as [[[]|e] s1]; [|reflexivity].
  rewrite IH. reflexivity.
Qed.

(** The state after a prefix of valid descriptors. *)
Definition applied_state (stride : Z) (pre : list VertexAttribute) (s : gl_state) : gl_state :=
  {| vao := {| va_handle := va_handle (vao s);
               enabledVertexAttribs := enabledVertexAttribs (vao s) ++ map index pre |};
     gl_log := gl_log s ++ flat_map (attrib_log stride) pre |}.

Lemma for_each_apply_valid_state (maxVertexAttribs stride count : Z)
    (l : list VertexAttribute) (s : gl_state) :
  0 <= maxVertexAttribs < 2 ^ 31 ->
  Forall (attrib_valid maxVertexAttribs) l ->
  for_each (apply_attrib maxVertexAttribs stride count) l s
  = (Ok tt, applied_state stride l s).
Proof.
  intros Hm Hl.
  pose proof (for_each_apply_valid maxVertexAttribs stride count l s Hm Hl) as H.
  destruct (for_each (apply_attrib maxVertexAttribs stride count) l s) as [r s'] eqn:E.
  simpl in H. subst r. apply for_each_apply_ok_inv in E. now subst s'.
Qed.

Lemma setAttributes_loop (debug : bool) (maxVertexAttribs : Z)
    (attribs : list VertexAttribute) (stride : Z) (s : gl_state) :
  0 < stride ->
  0 <= maxVertexAttribs < 2 ^ 31 ->
  Z.of_nat (List.length attribs) <= maxVertexAttribs ->
  (debug = true -> integrity_check attribs stride = None) ->
  setAttributes debug maxVertexAttribs attribs stride s
  = for_each (apply_attrib maxVertexAttribs stride (Z.of_nat (List.length attribs)))
      attribs (reset_state s).
Proof.
  intros Hs Hm Hc Hd. unfold setAttributes.
  replace (stride <=? 0) with false by (symmetry; apply Z.leb_gt; lia).
  replace (maxVertexAttribs <? 0) with false by (symmetry; apply Z.ltb_ge; lia).
  rewrite to_size_t_small by lia.
  replace (maxVertexAttribs <? Z.of_nat (List.length attribs)) with false
    by (symmetry; apply Z.ltb_ge; lia).
  rewrite setAttributes_after_reset. unfold bindM at 1.
  destruct debug; [rewrite Hd by reflexivity|]; reflexivity.
Qed.

(** C6: when the run reaches the loop over descriptors, every descriptor
    before position [k] is valid and descriptor [k] is not, the call
    fails and nothing is rolled back: the earlier descriptors stay enabled
    (their enable and pointer calls are in the log, with no disable after
    them) and recorded in the enabled-index set. When descriptor [k]
    passes the offset, index and component checks but has an incompatible
    (type, interp) pair, its own index has already been enabled and
    recorded when the incompatibility failure is raised. *)
Theorem C6_no_rollback (debug : bool) (maxVertexAttribs : Z)
    (pre post : list VertexAttribute) (a : VertexAttribute) (stride : Z)
    (s : gl_state) :
  0 < stride ->
  0 <= maxVertexAttribs < 2 ^ 31 ->
  Z.of_nat (List.length (pre ++ a :: post)) <= maxVertexAttribs ->
  (debug = true -> integrity_check (pre ++ a :: post) stride = None) ->
  Forall (attrib_valid maxVertexAttribs) pre ->
  ~ attrib_valid maxVertexAttribs a ->
  let r := setAttributes debug maxVertexAttribs (pre ++ a :: post) stride s in
  (exists e, fst r = Err e) /\
  (exists extra, enabledVertexAttribs (vao (snd r)) = map index pre ++ extra /\
                 (extra = [] \/ extra = [index a])) /\
  (exists evs, gl_log (snd r) = gl_log (reset_state s)
                                ++ flat_map (attrib_log stride) pre ++ evs /\
               forall ev, In ev evs -> forall i, ev <> EvDisableVertexAttribArray i) /\
  (0 <= offset a -> index a < maxVertexAttribs -> 1 <= numComponents a <= 4 ->
   fst (validateTypeInterpretation (type a) (interp a) EmptyString) = false ->
   fst r = Err (InvalidArgument (MIncompatible
             (snd (validateTypeInterpretation (type a) (interp a) EmptyString)))) /\
   enabledVertexAttribs (vao (snd r)) = map index pre ++ [index a] /\
   gl_log (snd r) = gl_log (reset_state s) ++ flat_map (attrib_log stride) pre
                    ++ [EvEnableVertexAttribArray (index a)]).
Proof.
  intros Hs Hm Hc Hd Hpre Ha r. subst r.
  set (count := Z.of_nat (List.length (pre ++ a :: post))).
  set (s1 := applied_state stride pre (reset_state s)).
  assert (Erun : setAttributes debug maxVertexAttribs (pre ++ a :: post) stride s
                 = (apply_attrib maxVertexAttribs stride count a ;;
                    for_each (apply_attrib maxVertexAttribs stride count) post) s1).
  { rewrite setAttributes_loop by assumption.
    rewrite for_each_app. unfold bindM at 1.
    rewrite for_each_apply_valid_state by assumption. reflexivity. }
  rewrite Erun. unfold bindM.
  assert (Hen : enabledVertexAttribs (vao s1) = map index pre) by reflexivity.
  assert (Hlog : gl_log s1 = gl_log (reset_state s) ++ flat_map (attrib_log stride) pre)
    by reflexivity.
  split; [|split; [|split]].
  - destruct (apply_attrib_invalid maxVertexAttribs stride count a s1 Hm Ha)
      as (e & s' & E & _). rewrite E. now exists e.
  - destruct (apply_attrib_invalid maxVertexAttribs stride count a s1 Hm Ha)
      as (e & s' & E & [-> | ->]); rewrite E; unfold enable_state;
      cbn [fst snd vao gl_log enabledVertexAttribs].
    + exists []. rewrite Hen. split; [symmetry; apply app_nil_r | now left].
    + exists [index a]. rewrite Hen. split; [reflexivity | now right].
  - destruct (apply_attrib_invalid maxVertexAttribs stride count a s1 Hm Ha)
      as (e & s' & E & [-> | ->]); rewrite E; unfold enable_state;
      cbn [fst snd vao gl_log enabledVertexAttribs].
    + exists []. rewrite Hlog, app_nil_r. split; [reflexivity | contradiction].
    + exists [EvEnableVertexAttribArray (index a)]. rewrite Hlog.
      split; [now rewrite <- app_assoc|].
      intros ev [<- | []] i. discriminate.
  - intros Ho Hi Hn Hv.
    rewrite (apply_attrib_incompatible maxVertexAttribs stride count a s1 Hm Ho Hi Hn Hv).
    unfold enable_state. cbn [fst snd vao gl_log enabledVertexAttribs].
    rewrite Hen, Hlog. split; [reflexivity|]. split; [reflexivity|].
    now rewrite <- app_assoc.
Qed.

Definition incompatible_layout : list VertexAttribute :=
  sample_layout ++ [attr 4 2 (type_code Float) IInteger 0] ++ second_layout.

Lemma C6_no_rollback_witness :
  let r := setAttributes false 16 incompatible_layout 24 init_state in
  (exists e, fst r = Err e) /\
  (exists extra, enabledVertexAttribs (vao (snd r)) = map index sample_layout ++ extra /\
                 (extra = [] \/ extra = [index (attr 4 2 (type_code Float) IInteger 0)])) /\
  (exists evs, gl_log (snd r) = gl_log (reset_state init_state)
                                ++ flat_map (attrib_log 24) sample_layout ++ evs /\
               forall ev, In ev evs -> forall i, ev <> EvDisableVertexAttribArray i) /\
  (0 <= offset (attr 4 2 (type_code Float) IInteger 0) ->
   index (attr 4 2 (type_code Float) IInteger 0) < 16 ->
   1 <= numComponents (attr 4 2 (type_code Float) IInteger 0) <= 4 ->
   fst (validateTypeInterpretation (type_code Float) IInteger EmptyString) = false ->
   fst r = Err (InvalidArgument (MIncompatible
             (snd (validateTypeInterpretation (type_code Float) IInteger EmptyString)))) /\
   enabledVertexAttribs (vao (snd r)) = map index sample_layout ++ [4] /\
   gl_log (snd r) = gl_log (reset_state init_state) ++ flat_map (attrib_log 24) sample_layout
                    ++ [EvEnableVertexAttribArray 4]).
Proof.
  apply (C6_no_rollback false 16 sample_layout second_layout
           (attr 4 2 (type_code Float) IInteger 0) 24 init_state).
  - lia.
  - lia.
  - simpl. lia.
  - intros H. discriminate H.
  - repeat constructor; unfold attrib_valid; simpl; try lia; discriminate.
  - unfold attrib_valid. simpl. intros (_ & _ & _ & _ & H). discriminate H.
Defined.

(** ** The integrity pass *)

(** [size_t end] of a descriptor whose type has [b] bytes. *)
Definition attr_end (a : VertexAttribute) (b : Z) : Z :=
  to_size_t (offset a + b * numComponents a).

(** Descriptor [a] passes the stride test of the pass. *)
Definition fits (stride : Z) (a : VertexAttribute) : Prop :=
  exists b, typeToBytes (type a) = Ok b /\ attr_end a b <= to_size_t stride.

(** The pass reports [a] (outer loop) against [c] (inner loop). *)
Definition flags_overlap (a c : VertexAttribute) : Prop :=
  exists b, typeToBytes (type a) = Ok b /\
            offset a <= offset c /\ to_size_t (offset c) < attr_end a b.

Lemma overlap_scan_none (i : nat) (off_i end_i : Z) (j0 : nat)
    (rest : list VertexAttribute) :
  overlap_scan i off_i end_i j0 rest = None <->
  (forall k c, nth_error rest k = Some c -> (j0 + k)%nat <> i ->
               ~ (off_i <= offset c /\ to_size_t (offset c) < end_i)).
Proof.
  revert j0. induction rest as [|c rest IH]; intros j0; simpl.
  - split; [intros _ [|k] c H; discriminate H | reflexivity].
  - destruct (Nat.eqb_spec i j0) as [E|E].
    + rewrite IH. split.
      * intros H [|k] c' Hk Hne; simpl in Hk.
        -- exfalso. lia.
        -- apply (H k c' Hk). lia.
      * intros H k c' Hk Hne. apply (H (S k) c' Hk). lia.
    + destruct ((off_i <=? offset c) && (to_size_t (offset c) <? end_i)) eqn:F.
      * split; [discriminate|]. intros H. exfalso.
        apply andb_true_iff in F. destruct F as [F1 F2].
        apply (H 0%nat c eq_refl); [lia|].
        split; [apply Z.leb_le | apply Z.ltb_lt]; assumption.
      * rewrite IH. split.
        -- intros H [|k] c' Hk Hne; simpl in Hk.
           ++ injection Hk as <-. intros [F1 F2].
              apply Z.leb_le in F1. apply Z.ltb_lt in F2.
              rewrite F1, F2 in F. discriminate F.
           ++ apply (H k c' Hk). lia.
        -- intros H k c' Hk Hne. apply (H (S k) c' Hk). lia.
Qed.

Lemma overlap_scan_some (i : nat) (off_i end_i : Z) (j0 : nat)
    (rest : list VertexAttribute) (e : error) :
  overlap_scan i off_i end_i j0 rest = Some e ->
  exists k c, nth_error rest k = Some c /\ (j0 + k)%nat <> i /\
              off_i <= offset c /\ to_size_t (offset c) < end_i /\
              e = InvalidArgument (MOverlap i (j0 + k)).
Proof.
  revert j0. induction rest as [|c rest IH]; intros j0; simpl; [discriminate|].
  destruct (Nat.eqb_spec i j0) as [E|E].
  - intros H. destruct (IH (S j0) H) as (k & c' & Hk & Hne & H1 & H2 & He).
    exists (S k), c'. repeat split; try assumption; try lia.
    rewrite He. do 2 f_equal. lia.
  - destruct ((off_i <=? offset c) && (to_size_t (offset c) <? end_i)) eqn:F.
    + intros H. injection H as <-. apply andb_true_iff in F.
      destruct F as [F1 F2]. apply Z.leb_le in F1. apply Z.ltb_lt in F2.
      exists 0%nat, c. repeat split; try assumption; try lia.
      now rewrite Nat.add_0_r.
    + intros H. destruct (IH (S j0) H) as (k & c' & Hk & Hne & H1 & H2 & He).
      exists (S k), c'. repeat split; try assumption; try lia.
      rewrite He. f_equal. f_equal. lia.
Qed.

Lemma stride_scan_none (all : list VertexAttribute) (stride : Z) (i0 : nat)
    (rest : list VertexAttribute) :
  stride_scan all stride i0 rest = None <->
  (forall k a, nth_error rest k = Some a ->
     exists b, typeToBytes (type a) = Ok b /\ attr_end a b <= to_size_t stride /\
               overlap_scan (i0 + k) (offset a) (attr_end a b) 0 all = None).
Proof.
  revert i0. induction rest as [|a rest IH]; intros i0; simpl.
  - split; [intros _ [|k] c H; discriminate H | reflexivity].
  - destruct (typeToBytes (type a)) as [b|e] eqn:Tb.
    + unfold attr_end at 1. fold (attr_end a b).
      destruct (to_size_t stride <? attr_end a b) eqn:Hs.
      * split; [discriminate|]. intros H. exfalso.
        destruct (H 0%nat a eq_refl) as (b' & Tb' & Hle & _).
        rewrite Tb in Tb'. injection Tb' as <-. apply Z.ltb_lt in Hs. unfold attr_end in *. lia.
      * destruct (overlap_scan i0 (offset a) (attr_end a b) 0 all) as [e|] eqn:Ho.
        -- split; [discriminate|]. intros H. exfalso.
           destruct (H 0%nat a eq_refl) as (b' & Tb' & _ & Ho').
           rewrite Tb in Tb'. injection Tb' as <-.
           rewrite Nat.add_0_r, Ho in Ho'. discriminate Ho'.
        -- rewrite IH. split.
           ++ intros H [|k] c Hk; simpl in Hk.
              ** injection Hk as <-. exists b. rewrite Nat.add_0_r.
                 apply Z.ltb_ge in Hs. repeat split; assumption.
              ** rewrite <- Nat.add_succ_comm. apply (H k c Hk).
           ++ intros H k c Hk. rewrite Nat.add_succ_comm. apply (H (S k) c Hk).
    + split; [discriminate|]. intros H. exfalso.
      destruct (H 0%nat a eq_refl) as (b' & Tb' & _). congruence.
Qed.

(** Every failure of the pass is one of its three invalid-argument errors. *)
Lemma stride_scan_some (all : list VertexAttribute) (stride : Z) (i0 : nat)
    (rest : list VertexAttribute) (e : error) :
  stride_scan all stride i0 rest = Some e ->
  e = InvalidArgument MInvalidType \/ e = InvalidArgument MBiggerThanStride \/
  exists i j, e = InvalidArgument (MOverlap i j).
Proof.
  revert i0. induction rest as [|a rest IH]; intros i0; simpl; [discriminate|].
  unfold typeToBytes at 1.
  destruct (type_of_code (type a)) as [t|];
    [|intros H; injection H as <-; now left].
  destruct t;
    (destruct (to_size_t stride <? _);
     [intros H; injection H as <-; right; now left|];
     destruct (overlap_scan _ _ _ 0 all) as [e'|] eqn:Ho;
     [intros H; injection H as <-; apply overlap_scan_some in Ho;
      destruct Ho as (k & c & _ & _ & _ & _ & ->); right; right; eauto
     | apply IH]).
Qed.

Lemma stride_scan_app (all : list VertexAttribute) (stride : Z) (i0 : nat)
    (pre rest : list VertexAttribute) :
  stride_scan all stride i0 (pre ++ rest)
  = match stride_scan all stride i0 pre with
    | Some e => Some e
    | None => stride_scan all stride (i0 + List.length pre) rest
    end.
Proof.
  revert i0. induction pre as [|a pre IH]; intros i0; simpl.
  - now rewrite Nat.add_0_r.
  - destruct (typeToBytes (type a)) as [b|e]; [|reflexivity].
    destruct (to_size_t stride <? _); [reflexivity|].
    destruct (overlap_scan i0 _ _ 0 all); [reflexivity|].
    rewrite IH. now rewrite Nat.add_succ_r.
Qed.

Lemma integrity_check_none (attribs : list VertexAttribute) (stride : Z) :
  integrity_check attribs stride = None <->
  (forall i a, nth_error attribs i = Some a -> fits stride a) /\
  (forall i j a c, nth_error attribs i = Some a -> nth_error attribs j = Some c ->
                   i <> j -> ~ flags_overlap a c).
Proof.
  unfold integrity_check. rewrite stride_scan_none. split.
  - intros H. split.
    + intros i a Hi. destruct (H i a Hi) as (b & Tb & Hle & _). now exists b.
    + intros i j a c Hi Hj Hne (b' & Tb' & F1 & F2).
      destruct (H i a Hi) as (b & Tb & _ & Ho). rewrite Tb in Tb'.
      injection Tb' as <-.
      rewrite overlap_scan_none in Ho. apply (Ho j c Hj); [simpl; lia|].
      split; assumption.
  - intros [Hf Hp] i a Hi. destruct (Hf i a Hi) as (b & Tb & Hle).
    exists b. repeat split; try assumption.
    apply overlap_scan_none. intros k c Hk Hne [F1 F2].
    apply (Hp i k a c Hi Hk); [simpl in Hne; lia|]. exists b. now repeat split.
Qed.

Definition no_overlap_pair (a c : VertexAttribute) : Prop :=
  ~ flags_overlap a c /\ ~ flags_overlap c a.

Lemma positions_forall (P : VertexAttribute -> Prop) (l : list VertexAttribute) :
  (forall i a, nth_error l i = Some a -> P a) <-> Forall P l.
Proof.
  rewrite Forall_forall. split.
  - intros H a Ha. destruct (In_nth_error l a Ha) as [i Hi]. exact (H i a Hi).
  - intros H i a Hi. apply H. exact (nth_error_In l i Hi).
Qed.

Lemma positions_pairs (l : list VertexAttribute) :
  (forall i j a c, nth_error l i = Some a -> nth_error l j = Some c ->
                   i <> j -> ~ flags_overlap a c)
  <-> ForallOrdPairs no_overlap_pair l.
Proof.
  induction l as [|x l IH].
  - split; [constructor|]. intros _ [|i] j a c H; discriminate H.
  - split.
    + intros H. constructor.
      * apply Forall_forall. intros c Hc.
        destruct (In_nth_error l c Hc) as [j Hj]. split.
        -- exact (H 0%nat (S j) x c eq_refl Hj ltac:(discriminate)).
        -- exact (H (S j) 0%nat c x Hj eq_refl ltac:(discriminate)).
      * apply IH. intros i j a c Hi Hj Hne.
        exact (H (S i) (S j) a c Hi Hj ltac:(lia)).
    + intros H. inversion H as [|? ? Hx Hl]; subst.
      rewrite Forall_forall in Hx. rewrite <- IH in Hl.
      intros [|i] [|j] a c Hi Hj Hne; simpl in Hi, Hj.
      * contradiction.
      * injection Hi as <-. apply (Hx c (nth_error_In l j Hj)).
      * injection Hj as <-. apply (Hx a (nth_error_In l i Hi)).
      * apply (Hl i j a c Hi Hj). lia.
Qed.

Lemma Forall_perm (P : VertexAttribute -> Prop) (l l' : list VertexAttribute) :
  Permutation l l' -> Forall P l -> Forall P l'.
Proof.
  intros HP H. rewrite Forall_forall in *. intros x Hx. apply H.
  exact (Permutation_in x (Permutation_sym HP) Hx).
Qed.

Lemma ForallOrdPairs_perm (R : VertexAttribute -> VertexAttribute -> Prop)
    (l l' : list VertexAttribute) :
  (forall a c, R a c -> R c a) ->
  Permutation l l' -> ForallOrdPairs R l -> ForallOrdPairs R l'.
Proof.
  intros Sym HP. induction HP as [| x l l' HP IH | x y l | l l' l'' H1 IH1 H2 IH2];
    intros H.
  - exact H.
  - inversion H as [|? ? Hx Hl]; subst.
    constructor; [exact (Forall_perm _ _ _ HP Hx) | exact (IH Hl)].
  - inversion H as [|? ? Hy Hl]; subst.
    inversion Hl as [|? ? Hx Hl']; subst.
    inversion Hy as [|? ? Hyx Hyl]; subst.
    constructor; [constructor; [apply Sym; exact Hyx | exact Hx]|].
    constructor; assumption.
  - exact (IH2 (IH1 H)).
Qed.

(** Characterisation of the pass: it accepts exactly the layouts whose
    descriptors all fit and where no descriptor is reported against
    another one. *)
Lemma integrity_check_none_pairs (attribs : list VertexAttribute) (stride : Z) :
  integrity_check attribs stride = None <->
  Forall (fits stride) attribs /\ ForallOrdPairs no_overlap_pair attribs.
Proof.
  rewrite integrity_check_none, positions_forall, positions_pairs. reflexivity.
Qed.

Lemma integrity_check_perm (l l' : list VertexAttribute) (stride : Z) :
  Permutation l l' ->
  (integrity_check l stride = None <-> integrity_check l' stride = None).
Proof.
  intros HP. rewrite !integrity_check_none_pairs.
  assert (Sym : forall a c, no_overlap_pair a c -> no_overlap_pair c a)
    by (intros a c [H1 H2]; split; assumption).
  split; intros [Hf Hp]; split.
  - exact (Forall_perm _ _ _ HP Hf).
  - exact (ForallOrdPairs_perm _ _ _ Sym HP Hp).
  - exact (Forall_perm _ _ _ (Permutation_sym HP) Hf).
  - exact (ForallOrdPairs_perm _ _ _ Sym (Permutation_sym HP) Hp).
Qed.

(** Byte range of a descriptor: [offset, offset + byte_size). *)
Definition byte_size (a : VertexAttribute) : Z :=
  match typeToBytes (type a) with
  | Ok b => b * numComponents a
  | Err _ => 0
  end.

(** The byte ranges of [a] and [c] share a byte. *)
Definition ranges_overlap (a c : VertexAttribute) : Prop :=
  exists x, offset a <= x < offset a + byte_size a /\
            offset c <= x < offset c + byte_size c.

(** The fields hold values of their C++ types and the type is one of the
    enumeration. *)
Definition attr_in_range (a : VertexAttribute) : Prop :=
  uint_range (index a) /\ int_range (numComponents a) /\ int_range (offset a) /\
  type_of_code (type a) <> None.

(** A descriptor the later checks of [setAttributes] would accept as to
    offset and component count. *)
Definition attr_wf (a : VertexAttribute) : Prop :=
  attr_in_range a /\ 0 <= offset a /\ 1 <= numComponents a.

Lemma typeToBytes_bounds (z b : Z) : typeToBytes z = Ok b -> 1 <= b <= 8.
Proof.
  unfold typeToBytes. destruct (type_of_code z) as [[]|]; intros H;
    try discriminate H; injection H as <-; lia.
Qed.

Lemma typeToBytes_valid (z : Z) :
  type_of_code z <> None -> exists b, typeToBytes z = Ok b.
Proof.
  unfold typeToBytes. intros H.
  destruct (type_of_code z) as [[]|]; try contradiction; eexists; reflexivity.
Qed.

Ltac attr_facts a b :=
  let Tb := fresh "Tb" in
  match goal with
  | H : attr_in_range a |- _ =>
      let Hi := fresh in let Hn := fresh in let Ho := fresh in let Ht := fresh in
      destruct H as (Hi & Hn & Ho & Ht);
      destruct (typeToBytes_valid (type a) Ht) as [b Tb];
      pose proof (typeToBytes_bounds _ _ Tb);
      unfold byte_size, uint_range, int_range in *; rewrite ?Tb in *
  end.

Lemma exceeds_not_fits (stride : Z) (a : VertexAttribute) :
  0 < stride < 2 ^ 31 -> attr_in_range a ->
  stride < offset a + byte_size a -> ~ fits stride a.
Proof.
  intros Hs Ha Hx (b' & Tb' & Hle). attr_facts a b.
  rewrite ?Tb in Tb'. injection Tb' as <-. unfold attr_end in Hle.
  rewrite !to_size_t_small in Hle by nia. lia.
Qed.

Lemma fits_iff (stride : Z) (a : VertexAttribute) :
  0 < stride < 2 ^ 31 -> attr_wf a ->
  fits stride a <-> offset a + byte_size a <= stride.
Proof.
  intros Hs (Ha & Ho0 & Hn1). split.
  - intros H. destruct (Z_le_gt_dec (offset a + byte_size a) stride); [assumption|].
    exfalso. apply (exceeds_not_fits stride a Hs Ha); [lia | exact H].
  - intros Hle. attr_facts a b. exists b. split; [exact Tb|].
    unfold attr_end. rewrite !to_size_t_small by nia. lia.
Qed.

Lemma flags_overlap_iff (a c : VertexAttribute) :
  attr_wf a -> attr_wf c ->
  flags_overlap a c <-> offset a <= offset c < offset a + byte_size a.
Proof.
  intros (Ha & Ho0 & Hn1) (Hc & Hco & Hcn).
  pose proof Hc as Hc'. destruct Hc' as (_ & _ & Hcr & _). unfold int_range in Hcr.
  attr_facts a b. split.
  - intros (b' & Tb' & F1 & F2). rewrite ?Tb in Tb'. injection Tb' as <-.
    unfold attr_end in F2. rewrite !to_size_t_small in F2 by nia. lia.
  - intros [F1 F2]. exists b. repeat split; [exact Tb | exact F1 |].
    unfold attr_end. rewrite !to_size_t_small by nia. lia.
Qed.

Lemma ranges_overlap_iff (a c : VertexAttribute) :
  attr_wf a -> attr_wf c ->
  ranges_overlap a c <-> flags_overlap a c \/ flags_overlap c a.
Proof.
  intros Ha Hc. rewrite !flags_overlap_iff by assumption.
  assert (Sa : 1 <= byte_size a).
  { destruct Ha as (Ha & _ & Hn). attr_facts a b. nia. }
  assert (Sc : 1 <= byte_size c).
  { destruct Hc as (Hc & _ & Hn). attr_facts c b. nia. }
  unfold ranges_overlap. split.
  - intros (x & Hx1 & Hx2). lia.
  - intros [H|H]; [exists (offset c) | exists (offset a)]; lia.
Qed.

Lemma stride_scan_fits_some (all : list VertexAttribute) (stride : Z) (i0 : nat)
    (rest : list VertexAttribute) (e : error) :
  Forall (fits stride) rest ->
  stride_scan all stride i0 rest = Some e ->
  exists i j, e = InvalidArgument (MOverlap i j).
Proof.
  intros Hf. revert i0. induction Hf as [|a rest (b & Tb & Hle) Hf IH];
    intros i0; simpl; [discriminate|].
  rewrite Tb. fold (attr_end a b).
  replace (to_size_t stride <? attr_end a b) with false
    by (symmetry; apply Z.ltb_ge; exact Hle).
  destruct (overlap_scan i0 (offset a) (attr_end a b) 0 all) as [e'|] eqn:Ho.
  - intros H. injection H as <-. apply overlap_scan_some in Ho.
    destruct Ho as (k & c & _ & _ & _ & _ & ->). eauto.
  - apply IH.
Qed.

Lemma setAttributes_integrity_fail (maxVertexAttribs : Z)
    (attribs : list VertexAttribute) (stride : Z) (s : gl_state) (e : error) :
  0 < stride ->
  0 <= maxVertexAttribs < 2 ^ 31 ->
  Z.of_nat (List.length attribs) <= maxVertexAttribs ->
  integrity_check attribs stride = Some e ->
  setAttributes true maxVertexAttribs attribs stride s = (Err e, reset_state s).
Proof.
  intros Hs Hm Hc Hi. unfold setAttributes.
  replace (stride <=? 0) with false by (symmetry; apply Z.leb_gt; lia).
  replace (maxVertexAttribs <? 0) with false by (symmetry; apply Z.ltb_ge; lia).
  rewrite to_size_t_small by lia.
  replace (maxVertexAttribs <? Z.of_nat (List.length attribs)) with false
    by (symmetry; apply Z.ltb_ge; lia).
  rewrite (setAttributes_after_reset true). unfold bindM at 1. rewrite Hi. reflexivity.
Qed.

Lemma stride_scan_overlap (all : list VertexAttribute) (stride : Z) (i0 : nat)
    (rest : list VertexAttribute) (i j : nat) :
  stride_scan all stride i0 rest = Some (InvalidArgument (MOverlap i j)) ->
  exists k a c, nth_error rest k = Some a /\ i = (i0 + k)%nat /\
                nth_error all j = Some c /\ i <> j /\ flags_overlap a c.
Proof.
  revert i0. induction rest as [|a rest IH]; intros i0; simpl; [discriminate|].
  destruct (typeToBytes (type a)) as [b|e] eqn:Tb.
  - destruct (to_size_t stride <? _); [discriminate|].
    destruct (overlap_scan i0 (offset a) _ 0 all) as [e|] eqn:Ho.
    + intros H. injection H as ->. apply overlap_scan_some in Ho.
      destruct Ho as (k & c & Hk & Hne & F1 & F2 & He).
      injection He as <- Hj. simpl in Hj, Hne. subst j.
      exists 0%nat, a, c. repeat split; try assumption; try lia.
      exists b. repeat split; assumption.
    + intros H. destruct (IH (S i0) H) as (k & a' & c & Hk & -> & Hc & Hne & Hf).
      exists (S k), a', c. repeat split; try assumption; lia.
  - unfold typeToBytes in Tb.
    destruct (type_of_code (type a)) as [[]|]; try discriminate Tb.
    injection Tb as <-. discriminate.
Qed.

(** C5 as stated fails: the pass converts a negative signed end to a huge
    [size_t] and rejects it although [offset + size <= stride], and it
    reports an empty range (0 components) lying inside another one as an
    overlap although the two byte ranges share no byte. *)
Lemma C5_counterexample :
  (-8 + 4 * 1 <= 16 /\
   integrity_check [attr 0 1 (type_code Float) IFloat (-8)] 16
   = Some (InvalidArgument MBiggerThanStride)) /\
  (0 + 4 * 3 <= 16 /\ 4 + 4 * 0 <= 16 /\
   ~ ranges_overlap (attr 0 3 (type_code Float) IFloat 0) (attr 1 0 (type_code Float) IFloat 4) /\
   integrity_check [attr 0 3 (type_code Float) IFloat 0; attr 1 0 (type_code Float) IFloat 4] 16
   = Some (InvalidArgument (MOverlap 0 1))).
Proof.
  split; [split; [lia | reflexivity]|].
  split; [lia|]. split; [lia|]. split; [|reflexivity].
  unfold ranges_overlap, byte_size. simpl. intros (x & H1 & H2). lia.
Qed.

(** C5 (amended): in a debug build, once the stride is positive and the
    descriptor count is within a non-negative queried limit (so the
    integrity pass is reached), with every field in range and every type
    in the enumeration:
    - a failure of the pass is the failure of [setAttributes], always an
      invalid-argument error;
    - a descriptor with [offset + size > stride] makes the call fail with
      invalid-argument;
    - an overlap error names two distinct positions, the first reported
      against the second; for descriptors with [offset >= 0] and at least
      one component their byte ranges share a byte;
    - for such descriptors, when all fit the stride and two ranges share a
      byte, the call fails with an overlap error naming two positions whose
      ranges share a byte;
    - for such descriptors the pass accepts the layout exactly when every
      descriptor fits the stride and no two ranges share a byte;
    - whether the pass accepts does not depend on the order of the
      descriptors. *)
Theorem C5_integrity_pass (maxVertexAttribs stride : Z)
    (attribs : list VertexAttribute) (s : gl_state) :
  0 < stride < 2 ^ 31 ->
  0 <= maxVertexAttribs < 2 ^ 31 ->
  Z.of_nat (List.length attribs) <= maxVertexAttribs ->
  Forall attr_in_range attribs ->
  (forall e, integrity_check attribs stride = Some e ->
     fst (setAttributes true maxVertexAttribs attribs stride s) = Err e /\
     exists m, e = InvalidArgument m) /\
  ((exists a, In a attribs /\ stride < offset a + byte_size a) ->
   exists m, fst (setAttributes true maxVertexAttribs attribs stride s)
             = Err (InvalidArgument m)) /\
  (forall i j, integrity_check attribs stride = Some (InvalidArgument (MOverlap i j)) ->
     i <> j /\ exists a c, nth_error attribs i = Some a /\ nth_error attribs j = Some c /\
                          flags_overlap a c /\ (attr_wf a -> attr_wf c -> ranges_overlap a c)) /\
  (Forall attr_wf attribs ->
   Forall (fun a => offset a + byte_size a <= stride) attribs ->
   (exists i j a c, i <> j /\ nth_error attribs i = Some a /\
                    nth_error attribs j = Some c /\ ranges_overlap a c) ->
   exists i j a c,
     fst (setAttributes true maxVertexAttribs attribs stride s)
     = Err (InvalidArgument (MOverlap i j)) /\
     i <> j /\ nth_error attribs i = Some a /\ nth_error attribs j = Some c /\
     ranges_overlap a c) /\
  (Forall attr_wf attribs ->
   (integrity_check attribs stride = None <->
    Forall (fun a => offset a + byte_size a <= stride) attribs /\
    (forall i j a c, i <> j -> nth_error attribs i = Some a ->
                     nth_error attribs j = Some c -> ~ ranges_overlap a c))) /\
  (forall attribs', Permutation attribs attribs' ->
   (integrity_check attribs stride = None <-> integrity_check attribs' stride = None)).
Proof.
  intros Hs Hm Hc Hr.
  assert (Link : forall e, integrity_check attribs stride = Some e ->
            fst (setAttributes true maxVertexAttribs attribs stride s) = Err e /\
            exists m, e = InvalidArgument m).
  { intros e He. split.
    - rewrite (setAttributes_integrity_fail maxVertexAttribs attribs stride s e)
        by (assumption || lia). reflexivity.
    - apply stride_scan_some in He. destruct He as [-> | [-> | (i & j & ->)]]; eauto. }
  assert (Ov : forall i j, integrity_check attribs stride = Some (InvalidArgument (MOverlap i j)) ->
            i <> j /\ exists a c, nth_error attribs i = Some a /\ nth_error attribs j = Some c /\
                                 flags_overlap a c /\
                                 (attr_wf a -> attr_wf c -> ranges_overlap a c)).
  { intros i j H. apply stride_scan_overlap in H.
    destruct H as (k & a & c & Hk & -> & Hj & Hne & Hf). simpl in *.
    split; [exact Hne|]. exists a, c. repeat split; try assumption.
    intros Ha Hc'. apply ranges_overlap_iff; [assumption | assumption | now left]. }
  assert (Char : Forall attr_wf attribs ->
            (integrity_check attribs stride = None <->
             Forall (fun a => offset a + byte_size a <= stride) attribs /\
             (forall i j a c, i <> j -> nth_error attribs i = Some a ->
                              nth_error attribs j = Some c -> ~ ranges_overlap a c))).
  { intros Hw. rewrite integrity_check_none, positions_forall.
    rewrite Forall_forall in Hw.
    assert (Hfit : Forall (fits stride) attribs <->
                   Forall (fun a => offset a + byte_size a <= stride) attribs).
    { rewrite !Forall_forall. split; intros H a Ha.
      - rewrite <- fits_iff by auto. auto.
      - rewrite fits_iff by auto. auto. }
    rewrite Hfit. apply and_iff_compat_l. split.
    - intros H i j a c Hne Hi Hj Ho.
      rewrite ranges_overlap_iff in Ho
        by (apply Hw; eapply nth_error_In; eassumption).
      destruct Ho as [Ho|Ho]; [exact (H i j a c Hi Hj Hne Ho)|].
      exact (H j i c a Hj Hi (not_eq_sym Hne) Ho).
    - intros H i j a c Hi Hj Hne Ho. apply (H i j a c Hne Hi Hj).
      apply ranges_overlap_iff;
        [apply Hw; eapply nth_error_In; eassumption
        |apply Hw; eapply nth_error_In; eassumption
        |now left]. }
  split; [exact Link|]. split; [|split; [exact Ov|split; [|split; [exact Char|]]]].
  - intros (a & Ha & Hx).
    case_eq (integrity_check attribs stride); [intros e He | intros He].
    + destruct (Link e He) as [E (m & ->)]. now exists m.
    + exfalso. apply integrity_check_none in He. destruct He as [Hf _].
      rewrite positions_forall, Forall_forall in Hf.
      rewrite Forall_forall in Hr.
      exact (exceeds_not_fits stride a Hs (Hr a Ha) Hx (Hf a Ha)).
  - intros Hw Hfit Hex.
    case_eq (integrity_check attribs stride); [intros e He | intros He].
    + assert (Hf : Forall (fits stride) attribs).
      { rewrite Forall_forall in *. intros a Ha. rewrite fits_iff by auto. auto. }
      destruct (stride_scan_fits_some attribs stride 0 attribs e Hf He) as (i & j & ->).
      destruct (Ov i j He) as (Hne & a & c & Hi & Hj & _ & Hrc).
      exists i, j, a, c. split; [exact (proj1 (Link _ He))|].
      repeat split; try assumption.
      rewrite Forall_forall in Hw.
      apply Hrc; apply Hw; eapply nth_error_In; eassumption.
    + exfalso. apply (proj1 (Char Hw)) in He. destruct He as [_ Hp].
      destruct Hex as (i & j & a & c & Hne & Hi & Hj & Ho).
      exact (Hp i j a c Hne Hi Hj Ho).
  - intros attribs' HP. apply integrity_check_perm. exact HP.
Qed.

Definition overlap_layout : list VertexAttribute :=
  [attr 0 3 (type_code Float) IFloat 0; attr 1 1 (type_code Float) IFloat 8].

Lemma C5_integrity_pass_witness :
  let r := setAttributes true 16 overlap_layout 16 init_state in
  (forall e, integrity_check overlap_layout 16 = Some e ->
     fst r = Err e /\ exists m, e = InvalidArgument m) /\
  ((exists a, In a overlap_layout /\ 16 < offset a + byte_size a) ->
   exists m, fst r = Err (InvalidArgument m)) /\
  (forall i j, integrity_check overlap_layout 16 = Some (InvalidArgument (MOverlap i j)) ->
     i <> j /\ exists a c, nth_error overlap_layout i = Some a /\
                          nth_error overlap_layout j = Some c /\
                          flags_overlap a c /\ (attr_wf a -> attr_wf c -> ranges_overlap a c)) /\
  (Forall attr_wf overlap_layout ->
   Forall (fun a => offset a + byte_size a <= 16) overlap_layout ->
   (exists i j a c, i <> j /\ nth_error overlap_layout i = Some a /\
                    nth_error overlap_layout j = Some c /\ ranges_overlap a c) ->
   exists i j a c, fst r = Err (InvalidArgument (MOverlap i j)) /\
     i <> j /\ nth_error overlap_layout i = Some a /\ nth_error overlap_layout j = Some c /\
     ranges_overlap a c) /\
  (Forall attr_wf overlap_layout ->
   (integrity_check overlap_layout 16 = None <->
    Forall (fun a => offset a + byte_size a <= 16) overlap_layout /\
    (forall i j a c, i <> j -> nth_error overlap_layout i = Some a ->
                     nth_error overlap_layout j = Some c -> ~ ranges_overlap a c))) /\
  (forall attribs', Permutation overlap_layout attribs' ->
   (integrity_check overlap_layout 16 = None <-> integrity_check attribs' 16 = None)).
Proof.
  apply C5_integrity_pass.
  - lia.
  - lia.
  - simpl. lia.
  - repeat constructor; unfold uint_range, int_range; simpl; try lia; discriminate.
Defined.

(** ** C10 *)

Definition negative_end_layout : list VertexAttribute :=
  overlap_layout ++ [attr 2 1 (type_code Float) IFloat (-100)].

(** C10 as stated fails: a descriptor with a negative end does not always
    yield the stride error; an earlier overlapping pair is reported
    first. *)
Lemma C10_counterexample :
  offset (attr 2 1 (type_code Float) IFloat (-100))
    + byte_size (attr 2 1 (type_code Float) IFloat (-100)) < 0 /\
  outcome (setAttributes true 16 negative_end_layout 16) init_state
  = Err (InvalidArgument (MOverlap 0 1)).
Proof. split; [vm_compute; reflexivity | reflexivity]. Qed.

(** C10 (amended): in a debug build, with a positive stride and the
    descriptor count within a non-negative queried limit, a descriptor
    whose [offset + size] is negative makes the integrity pass fail, so
    the dedicated negative-offset error is never raised: the call fails
    with the pass's error. When no descriptor before it fails its own
    stride or overlap test, that error is the stride error. *)
Theorem C10_negative_end_stride_error (maxVertexAttribs stride : Z)
    (pre post : list VertexAttribute) (d : VertexAttribute) (s : gl_state) :
  0 < stride < 2 ^ 31 ->
  0 <= maxVertexAttribs < 2 ^ 31 ->
  Z.of_nat (List.length (pre ++ d :: post)) <= maxVertexAttribs ->
  attr_in_range d ->
  offset d + byte_size d < 0 ->
  (exists e, fst (setAttributes true maxVertexAttribs (pre ++ d :: post) stride s) = Err e /\
             integrity_check (pre ++ d :: post) stride = Some e /\
             e <> InvalidArgument MNegativeOffset) /\
  ((forall i a, nth_error pre i = Some a ->
      fits stride a /\
      forall j c, nth_error (pre ++ d :: post) j = Some c -> j <> i -> ~ flags_overlap a c) ->
   fst (setAttributes true maxVertexAttribs (pre ++ d :: post) stride s)
   = Err (InvalidArgument MBiggerThanStride)).
Proof.
  intros Hs Hm Hc Hd Hneg.
  set (l := pre ++ d :: post).
  assert (Hdscan : stride_scan l stride (List.length pre) (d :: post)
                   = Some (InvalidArgument MBiggerThanStride)).
  { simpl. destruct Hd as (Hi & Hn & Ho & Ht).
    destruct (typeToBytes_valid (type d) Ht) as [b Tb].
    pose proof (typeToBytes_bounds _ _ Tb).
    unfold byte_size in Hneg. rewrite Tb in Hneg. rewrite Tb.
    unfold int_range in *.
    assert (b * numComponents d >= - 8 * 2 ^ 31) by nia.
    rewrite (to_size_t_neg (offset d + b * numComponents d)) by lia.
    rewrite (to_size_t_small stride) by lia.
    replace (stride <? _) with true by (symmetry; apply Z.ltb_lt; lia).
    reflexivity. }
  assert (Hscan : integrity_check l stride
                  = match stride_scan l stride 0 pre with
                    | Some e => Some e
                    | None => Some (InvalidArgument MBiggerThanStride)
                    end).
  { unfold integrity_check. unfold l at 2. rewrite stride_scan_app.
    change (0 + List.length pre)%nat with (List.length pre).
    rewrite Hdscan. reflexivity. }
  split.
  - destruct (integrity_check l stride) as [e|] eqn:He;
      [|destruct (stride_scan l stride 0 pre); discriminate Hscan].
    exists e. split; [|split; [reflexivity|]].
    + rewrite (setAttributes_integrity_fail maxVertexAttribs l stride s e)
        by (assumption || lia). reflexivity.
    + unfold integrity_check in He. apply stride_scan_some in He.
      intros ->. destruct He as [H | [H | (i & j & H)]]; discriminate H.
  - intros Hpre.
    assert (Hnone : stride_scan l stride 0 pre = None).
    { apply stride_scan_none. intros k a Hk.
      destruct (Hpre k a Hk) as [(b & Tb & Hle) Hov].
      exists b. repeat split; try assumption.
      apply overlap_scan_none. intros j c Hj Hne [F1 F2].
      apply (Hov j c Hj); [simpl in Hne; lia|].
      exists b. repeat split; assumption. }
    rewrite Hnone in Hscan.
    rewrite (setAttributes_integrity_fail maxVertexAttribs l stride s
               (InvalidArgument MBiggerThanStride))
      by (assumption || lia). reflexivity.
Qed.

Lemma C10_negative_end_stride_error_witness :
  let pre := [attr 0 3 (type_code Float) IFloat 0] in
  let d := attr 2 1 (type_code Float) IFloat (-100) in
  (exists e, fst (setAttributes true 16 (pre ++ [d]) 16 init_state) = Err e /\
             integrity_check (pre ++ [d]) 16 = Some e /\
             e <> InvalidArgument MNegativeOffset) /\
  ((forall i a, nth_error pre i = Some a ->
      fits 16 a /\
      forall j c, nth_error (pre ++ [d]) j = Some c -> j <> i -> ~ flags_overlap a c) ->
   fst (setAttributes true 16 (pre ++ [d]) 16 init_state)
   = Err (InvalidArgument MBiggerThanStride)).
Proof.
  intros pre d.
  apply (C10_negative_end_stride_error 16 16 pre [] d init_state).
  - lia.
  - lia.
  - simpl. lia.
  - unfold attr_in_range, uint_range, int_range. simpl.
    repeat split; try lia. discriminate.
  - vm_compute. reflexivity.
Defined.

(** * Further properties of the code *)

Lemma apply_attrib_err (maxVertexAttribs stride count : Z)
    (a : VertexAttribute) (s s' : gl_state) (e : error) :
  apply_attrib maxVertexAttribs stride count a s = (Err e, s') ->
  (exists m, e = InvalidArgument m) /\ (s' = s \/ s' = enable_state s (index a)).
Proof.
  unfold apply_attrib, throw.
  destruct (offset a <? 0); [intros H; injection H as <- <-; split; eauto|].
  destruct (to_uint maxVertexAttribs <=? index a); [intros H; injection H as <- <-; split; eauto|].
  destruct (_ || _); [intros H; injection H as <- <-; split; eauto|].
  unfold bindM, gl_call, push_enabled, get, set_enabled; simpl.
  destruct (validateTypeInterpretation (type a) (interp a) EmptyString)
    as [[|] err]; simpl; [|intros H; injection H as <- <-; split; eauto].
  unfold liftR, throw, retM.
  destruct (toGLenum (type a)) as [ty|e'] eqn:Ht; destruct (interp a);
    intros H; try discriminate H; injection H as <- <-;
    (split; [|right; reflexivity]);
    unfold toGLenum in Ht; destruct (type_of_code (type a)) as [[]|];
    try discriminate Ht; injection Ht as <-; eauto.
Qed.

Lemma apply_attrib_ok_valid (maxVertexAttribs stride count : Z)
    (a : VertexAttribute) (s s' : gl_state) :
  0 <= maxVertexAttribs < 2 ^ 31 ->
  apply_attrib maxVertexAttribs stride count a s = (Ok tt, s') ->
  attrib_valid maxVertexAttribs a.
Proof.
  intros Hm. unfold apply_attrib, throw.
  destruct (offset a <? 0) eqn:Ho; [discriminate|].
  destruct (to_uint maxVertexAttribs <=? index a) eqn:Hi; [discriminate|].
  destruct (_ || _) eqn:Hn; [discriminate|].
  rewrite to_uint_small in Hi by lia.
  apply Z.ltb_ge in Ho. apply Z.leb_gt in Hi.
  apply orb_false_iff in Hn. destruct Hn as [Hn1 Hn2].
  apply Z.ltb_ge in Hn1. apply Z.leb_gt in Hn2.
  unfold bindM, gl_call, push_enabled, get, set_enabled; simpl.
  destruct (validateTypeInterpretation (type a) (interp a) EmptyString)
    as [ok err] eqn:Ev; destruct ok; simpl; [|discriminate].
  unfold liftR, throw, retM.
  destruct (toGLenum (type a)) as [ty|e'] eqn:Ht; [|destruct (interp a); discriminate].
  intros _. unfold attrib_valid. rewrite Ev. repeat split; try lia.
  unfold toGLenum in Ht. destruct (type_of_code (type a)); [discriminate|discriminate Ht].
Qed.

Lemma for_each_apply_ok_valid (maxVertexAttribs stride count : Z)
    (l : list VertexAttribute) (s s' : gl_state) :
  0 <= maxVertexAttribs < 2 ^ 31 ->
  for_each (apply_attrib maxVertexAttribs stride count) l s = (Ok tt, s') ->
  Forall (attrib_valid maxVertexAttribs) l.
Proof.
  intros Hm. revert s. induction l as [|a l IH]; intros s; [constructor|].
  simpl. unfold bindM.
  destruct (apply_attrib maxVertexAttribs stride count a s) as [[[]|e] s1] eqn:E;
    [|discriminate].
  intros H. constructor; [exact (apply_attrib_ok_valid _ _ _ _ _ _ Hm E) | exact (IH s1 H)].
Qed.

Lemma for_each_apply_any (maxVertexAttribs stride count : Z)
    (l : list VertexAttribute) (s s' : gl_state) (r : result unit) :
  for_each (apply_attrib maxVertexAttribs stride count) l s = (r, s') ->
  (forall e, r = Err e -> exists m, e = InvalidArgument m) /\
  va_handle (vao s') = va_handle (vao s) /\
  (exists k, enabledVertexAttribs (vao s')
             = enabledVertexAttribs (vao s) ++ firstn k (map index l)) /\
  (exists evs, gl_log s' = gl_log s ++ evs /\
               forall ev, In ev evs -> forall i, ev <> EvDisableVertexAttribArray i).
Proof.
  revert s. induction l as [|a l IH]; intros s; simpl.
  - intros H. injection H as <- <-. split; [intros e H; discriminate H|].
    split; [reflexivity|]. split; [exists 0%nat; now rewrite app_nil_r|].
    exists []. rewrite app_nil_r. split; [reflexivity | contradiction].
  - unfold bindM.
    destruct (apply_attrib maxVertexAttribs stride count a s) as [[[]|e] s1] eqn:E.
    + apply apply_attrib_ok_inv in E. subst s1. intros H.
      destruct (IH _ H) as (He & Hh & (k & Hk) & (evs & Hl & Hnd)).
      split; [exact He|]. split; [exact Hh|]. split.
      * exists (S k). rewrite Hk. simpl. now rewrite <- app_assoc.
      * exists (attrib_log stride a ++ evs). rewrite Hl. simpl.
        split; [now rewrite <- app_assoc|].
        intros ev Hev. apply in_app_or in Hev. destruct Hev as [Hev|Hev];
          [apply (attrib_log_no_disable stride [a]); simpl; now rewrite app_nil_r
          | exact (Hnd ev Hev)].
    + intros H. injection H as <- <-.
      destruct (apply_attrib_err _ _ _ _ _ _ _ E) as [Hm [-> | ->]].
      * split; [intros e' H; injection H as <-; exact Hm|].
        split; [reflexivity|]. split; [exists 0%nat; now rewrite app_nil_r|].
        exists []. rewrite app_nil_r. split; [reflexivity | contradiction].
      * split; [intros e' H; injection H as <-; exact Hm|].
        split; [reflexivity|]. split; [exists 1%nat; reflexivity|].
        exists [EvEnableVertexAttribArray (index a)].
        split; [reflexivity|]. intros ev [<- | []] i. discriminate.
Qed.

Lemma apply_attrib_err_msg (maxVertexAttribs stride count : Z)
    (a : VertexAttribute) (s s' : gl_state) (e : error) :
  apply_attrib maxVertexAttribs stride count a s = (Err e, s') ->
  e <> InvalidArgument MBiggerThanStride /\ forall i j, e <> InvalidArgument (MOverlap i j).
Proof.
  unfold apply_attrib, throw.
  destruct (offset a <? 0);
    [intros H; injection H as <- <-; split; [|intros i j]; discriminate|].
  destruct (to_uint maxVertexAttribs <=? index a);
    [intros H; injection H as <- <-; split; [|intros i j]; discriminate|].
  destruct (_ || _);
    [intros H; injection H as <- <-; split; [|intros i j]; discriminate|].
  unfold bindM, gl_call, push_enabled, get, set_enabled; simpl.
  destruct (validateTypeInterpretation (type a) (interp a) EmptyString)
    as [[|] err]; simpl;
    [|intros H; injection H as <- <-; split; [|intros i j]; discriminate].
  unfold liftR, throw, retM.
  destruct (toGLenum (type a)) as [ty|e'] eqn:Ht; destruct (interp a);
    intros H; try discriminate H; injection H as <- <-;
    unfold toGLenum in Ht; destruct (type_of_code (type a)) as [[]|];
    try discriminate Ht; injection Ht as <-; (split; [|intros i j]); discriminate.
Qed.

Lemma for_each_apply_err_msg (maxVertexAttribs stride count : Z)
    (l : list VertexAttribute) (s s' : gl_state) (e : error) :
  for_each (apply_attrib maxVertexAttribs stride count) l s = (Err e, s') ->
  e <> InvalidArgument MBiggerThanStride /\ forall i j, e <> InvalidArgument (MOverlap i j).
Proof.
  revert s. induction l as [|a l IH]; intros s; simpl; [discriminate|].
  unfold bindM.
  destruct (apply_attrib maxVertexAttribs stride count a s) as [[[]|e'] s1] eqn:E.
  - apply IH.
  - intros H. injection H as <- <-. exact (apply_attrib_err_msg _ _ _ _ _ _ _ E).
Qed.

(** [setAttributes] by cases on its guards and on the integrity pass. *)
Lemma setAttributes_cases (debug : bool) (maxVertexAttribs : Z)
    (attribs : list VertexAttribute) (stride : Z) (s : gl_state) :
  setAttributes debug maxVertexAttribs attribs stride s =
  if stride <=? 0 then (Err (InvalidArgument MStrideNotPositive), s) else
  if maxVertexAttribs <? 0 then (Err (RuntimeError MQueryFailed), s) else
  if to_size_t maxVertexAttribs <? Z.of_nat (List.length attribs)
  then (Err (RuntimeError (MTooManyAttribs (Z.of_nat (List.length attribs))
                                           maxVertexAttribs)), s) else
  match (if debug then integrity_check attribs stride else None) with
  | Some e => (Err e, reset_state s)
  | None => for_each (apply_attrib maxVertexAttribs stride
                        (Z.of_nat (List.length attribs))) attribs (reset_state s)
  end.
Proof.
  unfold setAttributes, throw.
  destruct (stride <=? 0); [reflexivity|].
  destruct (maxVertexAttribs <? 0); [reflexivity|].
  destruct (to_size_t maxVertexAttribs <? _); [reflexivity|].
  rewrite setAttributes_after_reset. unfold bindM at 1.
  destruct debug; [destruct (integrity_check attribs stride)|]; reflexivity.
Qed.

Lemma setAttributes_ok_valid (debug : bool) (maxVertexAttribs : Z)
    (attribs : list VertexAttribute) (stride : Z) (s s' : gl_state) :
  int_range maxVertexAttribs ->
  setAttributes debug maxVertexAttribs attribs stride s = (Ok tt, s') ->
  0 < stride /\ 0 <= maxVertexAttribs /\
  Z.of_nat (List.length attribs) <= maxVertexAttribs /\
  (debug = true -> integrity_check attribs stride = None) /\
  Forall (attrib_valid maxVertexAttribs) attribs.
Proof.
  unfold int_range. intros Hm H. rewrite setAttributes_cases in H.
  destruct (stride <=? 0) eqn:E1; [discriminate|].
  destruct (maxVertexAttribs <? 0) eqn:E2; [discriminate|].
  apply Z.leb_gt in E1. apply Z.ltb_ge in E2.
  destruct (to_size_t maxVertexAttribs <? _) eqn:E3; [discriminate|].
  rewrite to_size_t_small in E3 by lia. apply Z.ltb_ge in E3.
  destruct (if debug then integrity_check attribs stride else None) eqn:E4;
    [discriminate|].
  repeat split; try lia.
  - intros ->. exact E4.
  - eapply for_each_apply_ok_valid; [|exact H]. lia.
Qed.

Lemma for_each_apply_split (maxVertexAttribs stride count : Z)
    (pre post : list VertexAttribute) (a : VertexAttribute) (s : gl_state) :
  0 <= maxVertexAttribs < 2 ^ 31 ->
  Forall (attrib_valid maxVertexAttribs) pre ->
  for_each (apply_attrib maxVertexAttribs stride count) (pre ++ a :: post) s
  = match apply_attrib maxVertexAttribs stride count a (applied_state stride pre s) with
    | (Ok _, s1) => for_each (apply_attrib maxVertexAttribs stride count) post s1
    | (Err e, s1) => (Err e, s1)
    end.
Proof.
  intros Hm Hpre. rewrite for_each_app. unfold bindM at 1.
  rewrite (for_each_apply_valid_state _ _ _ _ _ Hm Hpre). reflexivity.
Qed.

(** Two descriptors that differ at most in the [normalized] flag, and
    there only under the Integer interpretation. *)
Definition same_but_integer_normalized (a a' : VertexAttribute) : Prop :=
  index a = index a' /\ numComponents a = numComponents a' /\ type a = type a' /\
  interp a = interp a' /\ offset a = offset a' /\
  (interp a = IFloat -> normalized a = normalized a').

Lemma apply_attrib_same (maxVertexAttribs stride count : Z)
    (a a' : VertexAttribute) (s : gl_state) :
  same_but_integer_normalized a a' ->
  apply_attrib maxVertexAttribs stride count a s
  = apply_attrib maxVertexAttribs stride count a' s.
Proof.
  destruct a as [i n t ip nm o], a' as [i' n' t' ip' nm' o'].
  unfold same_but_integer_normalized; simpl.
  intros (<- & <- & <- & <- & <- & Hn).
  destruct ip; [rewrite Hn by reflexivity|]; reflexivity.
Qed.

Lemma for_each_apply_same (maxVertexAttribs stride count : Z)
    (l l' : list VertexAttribute) (s : gl_state) :
  Forall2 same_but_integer_normalized l l' ->
  for_each (apply_attrib maxVertexAttribs stride count) l s
  = for_each (apply_attrib maxVertexAttribs stride count) l' s.
Proof.
  intros H. revert s. induction H as [|a a' l l' Ha H IH]; intros s; [reflexivity|].
  simpl. unfold bindM. rewrite (apply_attrib_same _ _ _ a a' s Ha).
  destruct (apply_attrib maxVertexAttribs stride count a' s) as [[[]|e] s1];
    [apply IH | reflexivity].
Qed.

Lemma overlap_scan_same (i : nat) (off_i end_i : Z) (j : nat)
    (l l' : list VertexAttribute) :
  Forall2 same_but_integer_normalized l l' ->
  overlap_scan i off_i end_i j l = overlap_scan i off_i end_i j l'.
Proof.
  intros H. revert j. induction H as [|b b' l l' Hb H IH]; intros j; [reflexivity|].
  simpl. destruct Hb as (_ & _ & _ & _ & Ho & _). rewrite Ho, !IH. reflexivity.
Qed.

Lemma stride_scan_same (all all' : list VertexAttribute) (stride : Z) (i : nat)
    (l l' : list VertexAttribute) :
  Forall2 same_but_integer_normalized all all' ->
  Forall2 same_but_integer_normalized l l' ->
  stride_scan all stride i l = stride_scan all' stride i l'.
Proof.
  intros Hall H. revert i. induction H as [|a a' l l' Ha H IH]; intros i; [reflexivity|].
  simpl. destruct Ha as (_ & Hn & Ht & _ & Ho & _). rewrite Hn, Ht, Ho.
  destruct (typeToBytes (type a')); [|reflexivity].
  rewrite (overlap_scan_same _ _ _ _ _ _ Hall), IH. reflexivity.
Qed.

(** ** Extra properties *)

(** X1: a call that succeeds had a positive stride, a non-negative
    queried limit at least the descriptor count, in a debug build a layout
    the integrity pass accepts, and only descriptors with [offset >= 0],
    an index below the limit, 1 to 4 components, a type of the
    enumeration and a compatible interpretation. *)
Theorem X1_setAttributes_ok_requires_valid (debug : bool) (maxVertexAttribs : Z)
    (attribs : list VertexAttribute) (stride : Z) (s s' : gl_state) :
  int_range maxVertexAttribs ->
  setAttributes debug maxVertexAttribs attribs stride s = (Ok tt, s') ->
  0 < stride /\ 0 <= maxVertexAttribs /\
  Z.of_nat (List.length attribs) <= maxVertexAttribs /\
  (debug = true -> integrity_check attribs stride = None) /\
  Forall (attrib_valid maxVertexAttribs) attribs.
Proof. apply setAttributes_ok_valid. Qed.

Lemma X1_setAttributes_ok_requires_valid_witness :
  0 < 24 /\ 0 <= 16 /\ Z.of_nat (List.length sample_layout) <= 16 /\
  (true = true -> integrity_check sample_layout 24 = None) /\
  Forall (attrib_valid 16) sample_layout.
Proof.
  apply (X1_setAttributes_ok_requires_valid true 16 sample_layout 24 init_state
           (after (setAttributes true 16 sample_layout 24) init_state)).
  - unfold int_range. lia.
  - vm_compute. reflexivity.
Defined.

(** X2: with a positive stride a failed limit query fails with the
    runtime query error whatever the layout, leaving the state unchanged;
    and the only runtime errors [setAttributes] raises are this one and
    the too-many-descriptors error, both before the object is bound and
    with the state unchanged: every other failure is an invalid-argument
    error. *)
Theorem X2_setAttributes_runtime_errors (debug : bool) (maxVertexAttribs : Z)
    (attribs : list VertexAttribute) (stride : Z) (s : gl_state) :
  (0 < stride -> maxVertexAttribs < 0 ->
   setAttributes debug maxVertexAttribs attribs stride s
   = (Err (RuntimeError MQueryFailed), s)) /\
  (forall s' m,
     setAttributes debug maxVertexAttribs attribs stride s = (Err (RuntimeError m), s') ->
     s' = s /\ 0 < stride /\
     ((maxVertexAttribs < 0 /\ m = MQueryFailed) \/
      (0 <= maxVertexAttribs /\
       to_size_t maxVertexAttribs < Z.of_nat (List.length attribs) /\
       m = MTooManyAttribs (Z.of_nat (List.length attribs)) maxVertexAttribs))).
Proof.
  rewrite setAttributes_cases. split.
  - intros Hs Hm.
    replace (stride <=? 0) with false by (symmetry; apply Z.leb_gt; lia).
    replace (maxVertexAttribs <? 0) with true by (symmetry; apply Z.ltb_lt; lia).
    reflexivity.
  - intros s' m.
    destruct (stride <=? 0) eqn:E1; [intros H; discriminate H|].
    apply Z.leb_gt in E1.
    destruct (maxVertexAttribs <? 0) eqn:E2.
    { intros H. injection H as <- <-. apply Z.ltb_lt in E2. auto. }
    apply Z.ltb_ge in E2.
    destruct (to_size_t maxVertexAttribs <? _) eqn:E3.
    { intros H. injection H as <- <-. apply Z.ltb_lt in E3. auto 6. }
    destruct (if debug then integrity_check attribs stride else None) as [e|] eqn:E4.
    + intros H. injection H as -> _. destruct debug; [|discriminate E4].
      unfold integrity_check in E4. apply stride_scan_some in E4.
      destruct E4 as [H | [H | (i & j & H)]]; discriminate H.
    + intros H. destruct (for_each_apply_any _ _ _ _ _ _ _ H) as [He _].
      destruct (He _ eq_refl) as [m' Hm']. discriminate Hm'.
Qed.

Lemma X2_setAttributes_runtime_errors_witness :
  (0 < 24 -> -1 < 0 ->
   setAttributes true (-1) sample_layout 24 init_state
   = (Err (RuntimeError MQueryFailed), init_state)) /\
  (forall s' m,
     setAttributes true (-1) sample_layout 24 init_state = (Err (RuntimeError m), s') ->
     s' = init_state /\ 0 < 24 /\
     ((-1 < 0 /\ m = MQueryFailed) \/
      (0 <= -1 /\ to_size_t (-1) < Z.of_nat (List.length sample_layout) /\
       m = MTooManyAttribs (Z.of_nat (List.length sample_layout)) (-1)))).
Proof. apply X2_setAttributes_runtime_errors. Defined.

(** X3: with a positive stride and a non-negative queried limit an empty
    layout is accepted in both builds: the object is bound, every index
    enabled before is disabled, and the enabled-index set becomes empty. *)
Theorem X3_setAttributes_empty_layout (debug : bool) (maxVertexAttribs stride : Z)
    (s : gl_state) :
  0 < stride -> 0 <= maxVertexAttribs ->
  setAttributes debug maxVertexAttribs [] stride s
  = (Ok tt, {| vao := {| va_handle := va_handle (vao s); enabledVertexAttribs := [] |};
               gl_log := gl_log s ++ EvBind (va_handle (vao s))
                         :: map EvDisableVertexAttribArray (enabledVertexAttribs (vao s)) |}).
Proof.
  intros Hs Hm. rewrite setAttributes_cases.
  replace (stride <=? 0) with false by (symmetry; apply Z.leb_gt; lia).
  replace (maxVertexAttribs <? 0) with false by (symmetry; apply Z.ltb_ge; lia).
  replace (to_size_t maxVertexAttribs <? _) with false
    by (symmetry; apply Z.ltb_ge; unfold to_size_t;
        pose proof (Z.mod_pos_bound maxVertexAttribs (2 ^ 64)); simpl; lia).
  destruct debug; reflexivity.
Qed.

Lemma X3_setAttributes_empty_layout_witness :
  let s := after (setAttributes false 16 sample_layout 24) init_state in
  setAttributes true 16 [] 24 s
  = (Ok tt, {| vao := {| va_handle := va_handle (vao s); enabledVertexAttribs := [] |};
               gl_log := gl_log s ++ EvBind (va_handle (vao s))
                         :: map EvDisableVertexAttribArray (enabledVertexAttribs (vao s)) |}).
Proof. intros s. apply X3_setAttributes_empty_layout; lia. Defined.

(** X4: whatever its outcome, a call never changes the object's handle,
    and either leaves the state unchanged (failure before binding) or
    binds the object, disables every previously enabled index, then adds
    native calls none of which is a disable, and leaves as enabled-index
    set a prefix of the layout's indices. *)
Theorem X4_setAttributes_state_shape (debug : bool) (maxVertexAttribs : Z)
    (attribs : list VertexAttribute) (stride : Z) (s s' : gl_state) (r : result unit) :
  setAttributes debug maxVertexAttribs attribs stride s = (r, s') ->
  va_handle (vao s') = va_handle (vao s) /\
  (s' = s \/
   ((exists k, enabledVertexAttribs (vao s') = firstn k (map index attribs)) /\
    exists evs, gl_log s' = gl_log s ++ EvBind (va_handle (vao s))
                            :: map EvDisableVertexAttribArray (enabledVertexAttribs (vao s))
                            ++ evs /\
                forall ev, In ev evs -> forall i, ev <> EvDisableVertexAttribArray i)).
Proof.
  rewrite setAttributes_cases.
  destruct (stride <=? 0); [intros H; injection H as _ <-; auto|].
  destruct (maxVertexAttribs <? 0); [intros H; injection H as _ <-; auto|].
  destruct (to_size_t maxVertexAttribs <? _); [intros H; injection H as _ <-; auto|].
  destruct (if debug then integrity_check attribs stride else None) as [e|].
  - intros H. injection H as _ <-. split; [reflexivity|]. right.
    split; [exists 0%nat; reflexivity|].
    exists []. split; [|contradiction]. unfold reset_state. simpl.
    now rewrite app_nil_r.
  - intros H. destruct (for_each_apply_any _ _ _ _ _ _ _ H)
      as (_ & Hh & (k & Hk) & (evs & Hl & Hnd)).
    split; [exact Hh|]. right. split; [exists k; exact Hk|].
    exists evs. split; [|exact Hnd]. rewrite Hl. unfold reset_state. simpl.
    now rewrite <- app_assoc.
Qed.

Lemma X4_setAttributes_state_shape_witness :
  let s' := after (setAttributes false 16 incompatible_layout 24) init_state in
  va_handle (vao s') = va_handle (vao init_state) /\
  (s' = init_state \/
   ((exists k, enabledVertexAttribs (vao s') = firstn k (map index incompatible_layout)) /\
    exists evs, gl_log s' = gl_log init_state ++ EvBind (va_handle (vao init_state))
                            :: map EvDisableVertexAttribArray
                                 (enabledVertexAttribs (vao init_state))
                            ++ evs /\
                forall ev, In ev evs -> forall i, ev <> EvDisableVertexAttribArray i)).
Proof.
  intros s'.
  apply (X4_setAttributes_state_shape false 16 incompatible_layout 24 init_state s'
           (outcome (setAttributes false 16 incompatible_layout 24) init_state)).
  vm_compute. reflexivity.
Defined.

(** X5: once the loop over descriptors is reached and the descriptors
    before [a] are valid, the checks on [a] come in the source's order and
    decide the error: a negative offset, then an index not below the
    limit (the error carries the descriptor count, not the limit), then a
    component count outside 1..4, each before [a]'s index is enabled; a
    type outside the enumeration passes the interpretation check and is
    only caught after [a]'s index has been enabled and recorded. *)
Theorem X5_setAttributes_descriptor_errors (debug : bool) (maxVertexAttribs : Z)
    (pre post : list VertexAttribute) (a : VertexAttribute) (stride : Z)
    (s : gl_state) :
  0 < stride ->
  0 <= maxVertexAttribs < 2 ^ 31 ->
  Z.of_nat (List.length (pre ++ a :: post)) <= maxVertexAttribs ->
  (debug = true -> integrity_check (pre ++ a :: post) stride = None) ->
  Forall (attrib_valid maxVertexAttribs) pre ->
  let r := setAttributes debug maxVertexAttribs (pre ++ a :: post) stride s in
  let s1 := applied_state stride pre (reset_state s) in
  (offset a < 0 -> r = (Err (InvalidArgument MNegativeOffset), s1)) /\
  (0 <= offset a -> maxVertexAttribs <= index a ->
   r = (Err (InvalidArgument (MIndexTooBig (Z.of_nat (List.length (pre ++ a :: post))))),
        s1)) /\
  (0 <= offset a -> index a < maxVertexAttribs ->
   (numComponents a < 1 \/ 4 < numComponents a) ->
   r = (Err (InvalidArgument MNumComponents), s1)) /\
  (0 <= offset a -> index a < maxVertexAttribs -> 1 <= numComponents a <= 4 ->
   type_of_code (type a) = None ->
   r = (Err (InvalidArgument MInvalidType), enable_state s1 (index a))).
Proof.
  intros Hs Hm Hc Hd Hpre r s1. unfold r.
  rewrite setAttributes_loop by assumption.
  rewrite for_each_apply_split by assumption. fold s1.
  unfold apply_attrib. repeat split.
  - intros Ho. replace (offset a <? 0) with true by (symmetry; apply Z.ltb_lt; lia).
    reflexivity.
  - intros Ho Hi. replace (offset a <? 0) with false by (symmetry; apply Z.ltb_ge; lia).
    rewrite to_uint_small by lia.
    replace (maxVertexAttribs <=? index a) with true by (symmetry; apply Z.leb_le; lia).
    reflexivity.
  - intros Ho Hi Hn. replace (offset a <? 0) with false by (symmetry; apply Z.ltb_ge; lia).
    rewrite to_uint_small by lia.
    replace (maxVertexAttribs <=? index a) with false by (symmetry; apply Z.leb_gt; lia).
    replace ((4 <? numComponents a) || (numComponents a <=? 0)) with true
      by (symmetry; apply orb_true_iff; destruct Hn;
          [right; apply Z.leb_le | left; apply Z.ltb_lt]; lia).
    reflexivity.
  - intros Ho Hi Hn Et. replace (offset a <? 0) with false by (symmetry; apply Z.ltb_ge; lia).
    rewrite to_uint_small by lia.
    replace (maxVertexAttribs <=? index a) with false by (symmetry; apply Z.leb_gt; lia).
    replace ((4 <? numComponents a) || (numComponents a <=? 0)) with false
      by (symmetry; apply orb_false_iff; split; [apply Z.ltb_ge | apply Z.leb_gt]; lia).
    assert (Hv : validateTypeInterpretation (type a) (interp a) EmptyString
                 = (true, EmptyString))
      by (unfold validateTypeInterpretation; destruct (interp a); [reflexivity|];
          rewrite Et; reflexivity).
    unfold bindM, gl_call, push_enabled, get, set_enabled; simpl.
    rewrite Hv. simpl. unfold liftR, toGLenum, throw. rewrite Et.
    destruct (interp a); reflexivity.
Qed.

Lemma X5_setAttributes_descriptor_errors_witness :
  let a := attr 3 2 42 IFloat 0 in
  let r := setAttributes false 16 (sample_layout ++ [a]) 24 init_state in
  let s1 := applied_state 24 sample_layout (reset_state init_state) in
  (offset a < 0 -> r = (Err (InvalidArgument MNegativeOffset), s1)) /\
  (0 <= offset a -> 16 <= index a ->
   r = (Err (InvalidArgument (MIndexTooBig (Z.of_nat (List.length (sample_layout ++ [a]))))),
        s1)) /\
  (0 <= offset a -> index a < 16 ->
   (numComponents a < 1 \/ 4 < numComponents a) ->
   r = (Err (InvalidArgument MNumComponents), s1)) /\
  (0 <= offset a -> index a < 16 -> 1 <= numComponents a <= 4 ->
   type_of_code (type a) = None ->
   r = (Err (InvalidArgument MInvalidType), enable_state s1 (index a))).
Proof.
  apply (X5_setAttributes_descriptor_errors false 16 sample_layout []
           (attr 3 2 42 IFloat 0) 24 init_state).
  - lia.
  - lia.
  - simpl. lia.
  - intros H. discriminate H.
  - repeat constructor; unfold attrib_valid; simpl; try lia; discriminate.
Defined.

(** X6: the [normalized] flag of a descriptor with the Integer
    interpretation is never used: two layouts that differ only there give
    the same outcome and the same state, in both builds. *)
Theorem X6_setAttributes_integer_ignores_normalized (debug : bool) (maxVertexAttribs : Z)
    (attribs attribs' : list VertexAttribute) (stride : Z) (s : gl_state) :
  Forall2 same_but_integer_normalized attribs attribs' ->
  setAttributes debug maxVertexAttribs attribs stride s
  = setAttributes debug maxVertexAttribs attribs' stride s.
Proof.
  intros H. rewrite !setAttributes_cases. rewrite (Forall2_length H).
  assert (Hi : integrity_check attribs stride = integrity_check attribs' stride)
    by (apply stride_scan_same; exact H).
  rewrite Hi, (for_each_apply_same _ _ _ _ _ _ H). reflexivity.
Qed.

Lemma X6_setAttributes_integer_ignores_normalized_witness :
  setAttributes true 16 [attr 2 1 (type_code Int) IInteger 0] 4 init_state
  = setAttributes true 16 [{| index := 2; numComponents := 1; type := type_code Int;
                              interp := IInteger; normalized := true; offset := 0 |}]
      4 init_state.
Proof.
  apply X6_setAttributes_integer_ignores_normalized.
  repeat constructor. intros H. discriminate H.
Defined.

(** X7: the debug build behaves as the release build, except that, once
    the stride and limit checks pass and the previous indices are
    disabled, it may stop with the integrity pass's error before enabling
    anything. *)
Theorem X7_setAttributes_debug_vs_release (maxVertexAttribs : Z)
    (attribs : list VertexAttribute) (stride : Z) (s : gl_state) :
  setAttributes true maxVertexAttribs attribs stride s
  = setAttributes false maxVertexAttribs attribs stride s \/
  (exists e, integrity_check attribs stride = Some e /\ 0 < stride /\
             0 <= maxVertexAttribs /\
             setAttributes true maxVertexAttribs attribs stride s = (Err e, reset_state s)).
Proof.
  rewrite !setAttributes_cases.
  destruct (stride <=? 0) eqn:E1; [left; reflexivity|].
  destruct (maxVertexAttribs <? 0) eqn:E2; [left; reflexivity|].
  destruct (to_size_t maxVertexAttribs <? _); [left; reflexivity|].
  destruct (integrity_check attribs stride) as [e|] eqn:E4; [right|left; reflexivity].
  exists e. apply Z.leb_gt in E1. apply Z.ltb_ge in E2. auto.
Qed.

(** X8: the release build never raises the errors of the integrity pass
    (descriptor larger than the stride, overlapping descriptors). *)
Theorem X8_release_no_integrity_errors (maxVertexAttribs : Z)
    (attribs : list VertexAttribute) (stride : Z) (s s' : gl_state) (e : error) :
  setAttributes false maxVertexAttribs attribs stride s = (Err e, s') ->
  e <> InvalidArgument MBiggerThanStride /\ forall i j, e <> InvalidArgument (MOverlap i j).
Proof.
  rewrite setAttributes_cases.
  destruct (stride <=? 0);
    [intros H; injection H as <- _; split; [|intros i j]; discriminate|].
  destruct (maxVertexAttribs <? 0);
    [intros H; injection H as <- _; split; [|intros i j]; discriminate|].
  destruct (to_size_t maxVertexAttribs <? _);
    [intros H; injection H as <- _; split; [|intros i j]; discriminate|].
  apply for_each_apply_err_msg.
Qed.

Lemma X8_release_no_integrity_errors_witness :
  InvalidArgument (MIncompatible "Can't use type Float with Integer interpretation!"%string)
  <> InvalidArgument MBiggerThanStride /\
  forall i j, InvalidArgument (MIncompatible "Can't use type Float with Integer interpretation!"%string)
              <> InvalidArgument (MOverlap i j).
Proof.
  apply (X8_release_no_integrity_errors 16 incompatible_layout 24 init_state
           (after (setAttributes false 16 incompatible_layout 24) init_state)).
  vm_compute. reflexivity.
Defined.

(** X9: [validateTypeInterpretation] leaves its [error] parameter as it
    was when it succeeds, and its verdict and its failure message do not
    depend on what [error] held before: the message is assigned, not
    appended. *)
Theorem X9_validateTypeInterpretation_error_param (ty : Z) (ip : VertexAttribInterp)
    (e e' : string) :
  (fst (validateTypeInterpretation ty ip e) = true ->
   snd (validateTypeInterpretation ty ip e) = e) /\
  fst (validateTypeInterpretation ty ip e) = fst (validateTypeInterpretation ty ip e') /\
  (fst (validateTypeInterpretation ty ip e) = false ->
   snd (validateTypeInterpretation ty ip e) = snd (validateTypeInterpretation ty ip e')).
Proof.
  unfold validateTypeInterpretation.
  destruct ip; [|destruct (type_of_code ty) as [[]|]]; simpl;
    repeat split; intros H; first [reflexivity | discriminate H].
Qed.

Lemma X9_validateTypeInterpretation_error_param_witness :
  (fst (validateTypeInterpretation (type_code Int) IInteger "old"%string) = true ->
   snd (validateTypeInterpretation (type_code Int) IInteger "old"%string) = "old"%string) /\
  fst (validateTypeInterpretation (type_code Int) IInteger "old"%string)
  = fst (validateTypeInterpretation (type_code Int) IInteger EmptyString) /\
  (fst (validateTypeInterpretation (type_code Int) IInteger "old"%string) = false ->
   snd (validateTypeInterpretation (type_code Int) IInteger "old"%string)
   = snd (validateTypeInterpretation (type_code Int) IInteger EmptyString)).
Proof. apply X9_validateTypeInterpretation_error_param. Defined.

(** X10: reordering the descriptors of a layout that was accepted gives a
    layout that is accepted too (in the same build, with the same limit
    and stride), whose enabled-index set and native calls follow the new
    order. *)
Theorem X10_setAttributes_permutation (debug : bool) (maxVertexAttribs : Z)
    (attribs attribs' : list VertexAttribute) (stride : Z) (s s' : gl_state) :
  int_range maxVertexAttribs ->
  Permutation attribs attribs' ->
  setAttributes debug maxVertexAttribs attribs stride s = (Ok tt, s') ->
  setAttributes debug maxVertexAttribs attribs' stride s
  = (Ok tt, {| vao := {| va_handle := va_handle (vao s);
                         enabledVertexAttribs := map index attribs' |};
               gl_log := gl_log s ++ [EvBind (va_handle (vao s))]
                         ++ map EvDisableVertexAttribArray (enabledVertexAttribs (vao s))
                         ++ flat_map (attrib_log stride) attribs' |}).
Proof.
  intros Hm HP H. unfold int_range in Hm.
  destruct (setAttributes_ok_valid _ _ _ _ _ _ ltac:(exact Hm) H)
    as (Hs & Hm0 & Hc & Hd & Hv).
  rewrite setAttributes_loop.
  - rewrite for_each_apply_valid_state by (lia || exact (Forall_perm _ _ _ HP Hv)).
    unfold applied_state, reset_state. simpl. now rewrite <- !app_assoc.
  - exact Hs.
  - lia.
  - rewrite <- (Permutation_length HP). exact Hc.
  - intros Hdb. apply (integrity_check_perm _ _ _ HP). exact (Hd Hdb).
Qed.

Lemma X10_setAttributes_permutation_witness :
  setAttributes true 16 (rev sample_layout) 24 init_state
  = (Ok tt, {| vao := {| va_handle := 1; enabledVertexAttribs := map index (rev sample_layout) |};
               gl_log := [] ++ [EvBind 1] ++ map EvDisableVertexAttribArray []
                         ++ flat_map (attrib_log 24) (rev sample_layout) |}).
Proof.
  apply (X10_setAttributes_permutation true 16 sample_layout (rev sample_layout) 24
           init_state (after (setAttributes true 16 sample_layout 24) init_state)).
  - unfold int_range. lia.
  - apply Permutation_rev.
  - vm_compute. reflexivity.
Defined.
